(** * Stripe SDK: configuration layer over the request-pipeline builder

    A shallow embedding of [src/lib/sdk.ts]: the construction of the builder
    configuration ([stripeSdk]), the request-phase interceptor it installs
    ([reqInterceptor]), the idempotency token ([createRequestId]) and the
    pagination helper ([extractPageToken]).

    JavaScript objects used as dictionaries (the headers of a request) are
    finite maps; optional properties are [option]; numbers that the code only
    compares or defaults (status codes, milliseconds, retry counts) are [Z].
    Code that may throw returns a [Js.completion]. The random generator of
    the runtime is an explicit state that [createRequestId] reads and
    advances. An [async] callback is modelled by the completion its promise
    settles with.

    The builder itself ([sdkBuilder], its interceptor chain and its
    dispatcher) is imported by the source from another package; what the
    properties need of it is modelled from the specification and marked so. *)

From Stdlib Require Import ZArith NArith String Ascii List Bool Lia.
From stdpp Require Import gmap strings.
Import ListNotations.

Local Open Scope string_scope.

(** ** JavaScript defaulting operators *)

Module Js.

(** Truthiness of a string-valued optional property: [undefined] and the
    empty string are falsy. *)
Definition truthy_string (v : option string) : bool :=
  match v with
  | None => false
  | Some s => negb (String.eqb s "")
  end.

(** Truthiness of a number-valued optional property: [undefined] and [0]
    are falsy. *)
Definition truthy_number (v : option Z) : bool :=
  match v with
  | None => false
  | Some n => negb (Z.eqb n 0)
  end.

(** [v || d] at type string. *)
Definition or_string (v : option string) (d : string) : string :=
  match v with
  | Some s => if truthy_string v then s else d
  | None => d
  end.

(** [v || d] at type number. *)
Definition or_number (v : option Z) (d : Z) : Z :=
  match v with
  | Some n => if truthy_number v then n else d
  | None => d
  end.

(** [v || d] for a function- or object-valued property: every present
    value is truthy. *)
Definition or_object {A : Type} (v : option A) (d : A) : A :=
  match v with
  | Some a => a
  | None => d
  end.

(** [v ?? d]: only an absent value is replaced. *)
Definition nullish {A : Type} (v : option A) (d : A) : A :=
  match v with
  | Some a => a
  | None => d
  end.

(** Outcome of evaluating a piece of code: a value, or a thrown exception. *)
Inductive completion (A : Type) : Type :=
| Normal (a : A)
| Throw (e : string).
Arguments Normal {A} a.
Arguments Throw {A} e.

(** [try { body } catch (e) { handler }] where the handler ignores [e]. *)
Definition try_catch {A : Type} (body : completion A) (handler : completion A)
  : completion A :=
  match body with
  | Normal a => Normal a
  | Throw _ => handler
  end.

End Js.

(** ** Configuration records *)

(** A cache provider is an object the SDK only hands over to the builder; it
    is identified by reference. *)
Inductive CacheProvider : Type :=
| CacheRef (ref : positive).

(** Response payloads are opaque to this layer. *)
Inductive ResponseData : Type :=
| Payload (body : string).

(** What a response transformer gets to see besides the payload. *)
Record FetchContext : Type := mkFetchContext {
  fc_url : string;
  fc_method : string
}.

Record Response : Type := mkResponse {
  resp_status : Z;
  resp_headers : gmap string string
}.

Definition ResponseTransformer : Type :=
  ResponseData -> FetchContext -> Response -> ResponseData.

(** [interface StripeSDKConfig]. The fields carry the prefix [cfg_] to keep
    them apart from the fields of the same names in [ContextConfig]. *)
Record StripeSDKConfig : Type := mkStripeSDKConfig {
  cfg_apiKey : string;
  cfg_endpoint : option string;
  cfg_timeout : option Z;
  cfg_maxRetries : option Z;
  cfg_apiVersion : option string;
  cfg_cacheProvider : option CacheProvider;
  cfg_customResponseTransformer : option (ResponseData -> ResponseData)
}.

(** [type ContextConfig] *)
Record ContextConfig : Type := mkContextConfig {
  apiKey : string;
  timeout : Z;
  endpoint : string;
  apiVersion : string
}.

(** [SdkBuilderConfig], the argument of [sdkBuilder]. Its field
    [customResponseTransformer] is named [customResponseTransformerOf] here,
    because the module has a constant of that name as well. *)
Record SdkBuilderConfig : Type := mkSdkBuilderConfig {
  baseUrl : string;
  cacheProvider : option CacheProvider;
  maxRetries : Z;
  config : ContextConfig;
  customResponseTransformerOf : ResponseTransformer;
  validateStatus : Z -> bool
}.

Definition defaultEndpoint : string := "https://api.stripe.com".
Definition defaultApiVersion : string := "2025-04-30.basil".

(** The module's own transformer logs and returns the payload as it is. *)
Definition customResponseTransformer : ResponseTransformer :=
  fun responseData _ _ => responseData.

(** A transformer given by the caller takes the payload only; the further
    arguments the builder passes are dropped by the call. *)
Definition callerTransformer (f : ResponseData -> ResponseData)
  : ResponseTransformer :=
  fun responseData _ _ => f responseData.

(** The [sdkConfig] object literal of [stripeSdk]. *)
Definition sdkConfig (c : StripeSDKConfig) : SdkBuilderConfig :=
  {| baseUrl := Js.or_string (cfg_endpoint c) defaultEndpoint;
     cacheProvider := cfg_cacheProvider c;
     maxRetries := Js.nullish (cfg_maxRetries c) 0%Z;
     config :=
       {| apiKey := cfg_apiKey c;
          timeout := Js.or_number (cfg_timeout c) 10000%Z;
          endpoint := Js.or_string (cfg_endpoint c) defaultEndpoint;
          apiVersion := Js.or_string (cfg_apiVersion c) defaultApiVersion |};
     customResponseTransformerOf :=
       Js.or_object
         (option_map callerTransformer (cfg_customResponseTransformer c))
         customResponseTransformer;
     validateStatus := fun status =>
       (200 <=? status)%Z && (status <? 500)%Z |}.

(** ** Random source and the idempotency token *)

(** The state of the runtime's cryptographic random generator: an unbounded
    supply of bytes and the position of the next unread byte. *)
Record RandomSource : Type := mkRandomSource {
  pool : nat -> Byte.byte;
  cursor : nat
}.

(** Reads [n] bytes; the cursor moves past them. *)
Definition randomBytes (n : nat) (rs : RandomSource)
  : list Byte.byte * RandomSource :=
  (map (fun i => pool rs (cursor rs + i)) (seq 0 n),
   {| pool := pool rs; cursor := cursor rs + n |}).

Definition hexAlphabet : list ascii :=
  list_ascii_of_string "0123456789abcdef".

Definition hexDigit (n : N) : ascii :=
  nth (N.to_nat n) hexAlphabet "0"%char.

(** Two lowercase hexadecimal digits of a byte value, high nibble first. *)
Definition byteToHex (b : N) : string :=
  String (hexDigit (N.shiftr b 4)) (String (hexDigit (N.land b 15)) "").

Definition hexOfBytes (bs : list N) : string :=
  fold_right (fun b acc => byteToHex b ++ acc) "" bs.

(** Sets the version nibble (4) and the variant bits (10) of a 16-byte
    buffer, as [crypto.randomUUID] does while serialising it. *)
Definition uuidV4Bytes (bs : list Byte.byte) : list N :=
  imap (fun i b =>
          let n := Byte.to_N b in
          if Nat.eqb i 6 then N.lor (N.land n 15) 64
          else if Nat.eqb i 8 then N.lor (N.land n 63) 128
          else n) bs.

(** The 8-4-4-4-12 textual form. *)
Definition serializeUUID (bs : list N) : string :=
  hexOfBytes (firstn 4 bs) ++ "-" ++
  hexOfBytes (firstn 2 (skipn 4 bs)) ++ "-" ++
  hexOfBytes (firstn 2 (skipn 6 bs)) ++ "-" ++
  hexOfBytes (firstn 2 (skipn 8 bs)) ++ "-" ++
  hexOfBytes (skipn 10 bs).

(** [crypto.randomUUID()] *)
Definition randomUUID (rs : RandomSource) : string * RandomSource :=
  let (bs, rs') := randomBytes 16 rs in
  (serializeUUID (uuidV4Bytes bs), rs').

(** [s.replace(/-/g, '')]: every hyphen is deleted. *)
Fixpoint removeHyphens (s : string) : string :=
  match s with
  | EmptyString => EmptyString
  | String c s' =>
      if Ascii.eqb c "-"%char then removeHyphens s'
      else String c (removeHyphens s')
  end.

Definition createRequestId (rs : RandomSource) : string * RandomSource :=
  let (uuid, rs') := randomUUID rs in
  (removeHyphens uuid, rs').

(** ** Request options and the request-phase interceptor *)

(** Values of the option fields this layer never looks into. *)
Inductive JsValue : Type :=
| JsNull
| JsBool (b : bool)
| JsNumber (n : Z)
| JsString (s : string).

(** The [options] object handed to a request interceptor. [path] and
    [headers] are absent until somebody sets them; [otherFields] holds every
    further property (method, body, query, ...) under its name. *)
Record RequestOptions : Type := mkRequestOptions {
  path : option string;
  headers : option (gmap string string);
  contentType : option string;
  otherFields : gmap string JsValue
}.

(** [(path: string) => path.startsWith('/v2/')] *)
Definition isV2Endpoint (p : string) : bool := String.prefix "/v2/" p.

(** [{ ...h }]: spreading [undefined] contributes no property. *)
Definition spread (h : option (gmap string string)) : gmap string string :=
  match h with
  | Some m => m
  | None => ∅
  end.

(** [options = {}]: what the callback works on when the builder passes no
    options. *)
Definition noOptions : RequestOptions :=
  {| path := None; headers := None; contentType := None; otherFields := ∅ |}.

(** The callback registered under the name ['reqInterceptor']. The token is
    drawn first; reading [startsWith] off an absent path throws. Properties
    written later in the object literal win over spread ones. The callback
    assigns to [options.headers] and [options.contentType] and returns the
    same object; the record returned here is that object after the two
    assignments. *)
Definition reqInterceptor (cfg : ContextConfig) (options : RequestOptions)
    (rs : RandomSource) : Js.completion RequestOptions * RandomSource :=
  let (requestId, rs') := createRequestId rs in
  match path options with
  | None =>
      (Js.Throw "TypeError: Cannot read properties of undefined", rs')
  | Some p =>
      let isV2 := isV2Endpoint p in
      let headers' :=
        <["Idempotency-Key" := requestId]>
          (<["Stripe-Version" :=
               Js.or_string (Some (apiVersion cfg)) defaultApiVersion]>
             (<["Authorization" := "Bearer " ++ apiKey cfg]>
                (spread (headers options)))) in
      (Js.Normal
         {| path := path options;
            headers := Some headers';
            contentType :=
              Some (if isV2 then "application/json"
                    else "application/x-www-form-urlencoded");
            otherFields := otherFields options |},
       rs')
  end.

(** ** The builder's facade *)

Inductive Verb : Type := GET | POST | PUT | DELETE | PATCH.

Definition RequestInterceptor : Type :=
  ContextConfig -> RequestOptions -> RandomSource ->
  Js.completion RequestOptions * RandomSource.

(** Modelled from the spec: the object returned by [sdkBuilder] of the
    package [@nuecms/sdk-builder], which is not part of the sources. It owns
    the configuration, the ordered chain of named request interceptors and
    the endpoint registry. *)
Record StripeSDK : Type := mkStripeSDK {
  sdk_config : SdkBuilderConfig;
  sdk_interceptors : list (string * RequestInterceptor);
  sdk_endpoints : gmap string (string * Verb)
}.

(** Modelled from the spec: [sdkBuilder(config)] starts with no interceptor
    and no route. *)
Definition sdkBuilder (c : SdkBuilderConfig) : StripeSDK :=
  {| sdk_config := c; sdk_interceptors := []; sdk_endpoints := ∅ |}.

(** Modelled from the spec: [sdk.rx(name, fn)] appends a named request
    interceptor; stages run in registration order. *)
Definition rx (name : string) (fn : RequestInterceptor) (sdk : StripeSDK)
  : StripeSDK :=
  {| sdk_config := sdk_config sdk;
     sdk_interceptors := sdk_interceptors sdk ++ [(name, fn)];
     sdk_endpoints := sdk_endpoints sdk |}.

(** Modelled from the spec: [sdk.r(name, path, verb)] registers a route;
    registering a name again overwrites the earlier route. *)
Definition r (name pathTemplate : string) (verb : Verb) (sdk : StripeSDK)
  : StripeSDK :=
  {| sdk_config := sdk_config sdk;
     sdk_interceptors := sdk_interceptors sdk;
     sdk_endpoints := <[name := (pathTemplate, verb)]> (sdk_endpoints sdk) |}.

(** Modelled from the spec: the request phase of an invocation. Every stage
    receives the builder's [config] object and the previous stage's options;
    a stage that throws aborts the chain. *)
Fixpoint runChain (chain : list (string * RequestInterceptor))
    (cfg : ContextConfig) (options : RequestOptions) (rs : RandomSource)
  : Js.completion RequestOptions * RandomSource :=
  match chain with
  | [] => (Js.Normal options, rs)
  | (_, fn) :: rest =>
      match fn cfg options rs with
      | (Js.Normal options', rs') => runChain rest cfg options' rs'
      | (Js.Throw e, rs') => (Js.Throw e, rs')
      end
  end.

Definition requestPhase (sdk : StripeSDK) (options : RequestOptions)
    (rs : RandomSource) : Js.completion RequestOptions * RandomSource :=
  runChain (sdk_interceptors sdk) (config (sdk_config sdk)) options rs.

Definition registerAll (routes : list (string * string * Verb))
    (sdk : StripeSDK) : StripeSDK :=
  fold_left (fun s '(name, tpl, verb) => r name tpl verb s) routes sdk.

(** ** Route tables and construction *)

Definition v1Routes : list (string * string * Verb) :=
  [ ("getBalance", "/v1/balance", GET);
    ("getBalanceTransaction", "/v1/balance/history/{transaction_id}", GET);
    ("createCharge", "/v1/charges", POST);
    ("getCharge", "/v1/charges/{charge_id}", GET);
    ("updateCharge", "/v1/charges/{charge_id}", POST);
    ("captureCharge", "/v1/charges/{charge_id}/capture", POST);
    ("createCustomer", "/v1/customers", POST);
    ("getCustomer", "/v1/customers/{customer_id}", GET);
    ("updateCustomer", "/v1/customers/{customer_id}", POST);
    ("deleteCustomer", "/v1/customers/{customer_id}", DELETE);
    ("listCustomers", "/v1/customers", GET);
    ("createPaymentMethod", "/v1/payment_methods", POST);
    ("getPaymentMethod", "/v1/payment_methods/{payment_method_id}", GET);
    ("updatePaymentMethod", "/v1/payment_methods/{payment_method_id}", POST);
    ("attachPaymentMethod", "/v1/payment_methods/{payment_method_id}/attach", POST);
    ("detachPaymentMethod", "/v1/payment_methods/{payment_method_id}/detach", POST);
    ("createPaymentIntent", "/v1/payment_intents", POST);
    ("getPaymentIntent", "/v1/payment_intents/{payment_intent_id}", GET);
    ("updatePaymentIntent", "/v1/payment_intents/{payment_intent_id}", POST);
    ("confirmPaymentIntent", "/v1/payment_intents/{payment_intent_id}/confirm", POST);
    ("cancelPaymentIntent", "/v1/payment_intents/{payment_intent_id}/cancel", POST);
    ("capturePaymentIntent", "/v1/payment_intents/{payment_intent_id}/capture", POST);
    ("createSetupIntent", "/v1/setup_intents", POST);
    ("getSetupIntent", "/v1/setup_intents/{setup_intent_id}", GET);
    ("updateSetupIntent", "/v1/setup_intents/{setup_intent_id}", POST);
    ("confirmSetupIntent", "/v1/setup_intents/{setup_intent_id}/confirm", POST);
    ("cancelSetupIntent", "/v1/setup_intents/{setup_intent_id}/cancel", POST);
    ("createRefund", "/v1/refunds", POST);
    ("getRefund", "/v1/refunds/{refund_id}", GET);
    ("updateRefund", "/v1/refunds/{refund_id}", POST);
    ("cancelRefund", "/v1/refunds/{refund_id}/cancel", POST);
    ("createProduct", "/v1/products", POST);
    ("getProduct", "/v1/products/{product_id}", GET);
    ("updateProduct", "/v1/products/{product_id}", POST);
    ("deleteProduct", "/v1/products/{product_id}", DELETE);
    ("listProducts", "/v1/products", GET);
    ("createPrice", "/v1/prices", POST);
    ("getPrice", "/v1/prices/{price_id}", GET);
    ("updatePrice", "/v1/prices/{price_id}", POST);
    ("listPrices", "/v1/prices", GET);
    ("createSubscription", "/v1/subscriptions", POST);
    ("getSubscription", "/v1/subscriptions/{subscription_id}", GET);
    ("updateSubscription", "/v1/subscriptions/{subscription_id}", POST);
    ("cancelSubscription", "/v1/subscriptions/{subscription_id}", DELETE);
    ("createInvoice", "/v1/invoices", POST);
    ("getInvoice", "/v1/invoices/{invoice_id}", GET);
    ("updateInvoice", "/v1/invoices/{invoice_id}", POST);
    ("finalizeInvoice", "/v1/invoices/{invoice_id}/finalize", POST);
    ("payInvoice", "/v1/invoices/{invoice_id}/pay", POST);
    ("voidInvoice", "/v1/invoices/{invoice_id}/void", POST);
    ("constructEvent", "/v1/webhook/construct-event", POST);
    ("createCheckoutSession", "/v1/checkout/sessions", POST);
    ("getCheckoutSession", "/v1/checkout/sessions/{id}", GET);
    ("listCheckoutSessions", "/v1/checkout/sessions", GET);
    ("expireCheckoutSession", "/v1/checkout/sessions/{id}/expire", POST);
    ("getCheckoutSessionLineItems", "/v1/checkout/sessions/{id}/line_items", GET) ].

Definition registerV1Endpoints (sdk : StripeSDK) : StripeSDK :=
  registerAll v1Routes sdk.

Definition v2Routes : list (string * string * Verb) :=
  [ ("v2CreateMeterEvent", "/v2/billing/meter_events", POST);
    ("v2GetMeterEvent", "/v2/billing/meter_events/{meter_event_id}", GET);
    ("v2ListMeterEvents", "/v2/billing/meter_events", GET);
    ("v2CreateMeterEventAdjustment", "/v2/billing/meter_event_adjustments", POST);
    ("v2GetMeterEventAdjustment", "/v2/billing/meter_event_adjustments/{meter_event_adjustment_id}", GET);
    ("v2ListMeterEventAdjustments", "/v2/billing/meter_event_adjustments", GET);
    ("v2CreateMeterEventSession", "/v2/billing/meter_event_session", POST);
    ("v2CreateMeterEventStream", "/v2/billing/meter_event_stream", POST);
    ("v2CreateEventDestination", "/v2/core/event_destinations", POST);
    ("v2GetEventDestination", "/v2/core/event_destinations/{id}", GET);
    ("v2UpdateEventDestination", "/v2/core/event_destinations/{id}", POST);
    ("v2ListEventDestinations", "/v2/core/event_destinations", GET);
    ("v2DeleteEventDestination", "/v2/core/event_destinations/{id}", DELETE);
    ("v2DisableEventDestination", "/v2/core/event_destinations/{id}/disable", POST);
    ("v2EnableEventDestination", "/v2/core/event_destinations/{id}/enable", POST);
    ("v2PingEventDestination", "/v2/core/event_destinations/{id}/ping", POST);
    ("v2GetEvent", "/v2/core/events/{event_id}", GET);
    ("v2ListEvents", "/v2/core/events", GET) ].

Definition registerV2Endpoints (sdk : StripeSDK) : StripeSDK :=
  registerAll v2Routes sdk.

(** [stripeSdk(config)]: builds the configuration, installs the interceptor,
    then registers the two route families. *)
Definition stripeSdk (c : StripeSDKConfig) : StripeSDK :=
  let sdk := sdkBuilder (sdkConfig c) in
  let sdk := rx "reqInterceptor" reqInterceptor sdk in
  let sdk := registerV1Endpoints sdk in
  registerV2Endpoints sdk.

(** ** URLs and their query parameters *)

Module Url.

Local Open Scope nat_scope.

(** What [extractPageToken] uses of a URL object: its scheme and the list of
    name-value pairs of the query, in order of appearance. *)
Record URL : Type := mkURL {
  scheme : string;
  searchParams : list (string * string)
}.

(** [searchParams.get(name)]: the value of the first pair with that name. *)
Fixpoint get (name : string) (params : list (string * string))
  : option string :=
  match params with
  | [] => None
  | (k, v) :: rest => if String.eqb k name then Some v else get name rest
  end.

Definition code (c : ascii) : nat := nat_of_ascii c.

Definition isC0OrSpace (c : ascii) : bool := code c <=? 32.

Definition isTabOrNewline (c : ascii) : bool :=
  (code c =? 9) || (code c =? 10) || (code c =? 13).

Definition isAlpha (c : ascii) : bool :=
  ((65 <=? code c) && (code c <=? 90)) || ((97 <=? code c) && (code c <=? 122)).

Definition isDigit (c : ascii) : bool := (48 <=? code c) && (code c <=? 57).

Definition isSchemeChar (c : ascii) : bool :=
  isAlpha c || isDigit c || Ascii.eqb c "+" || Ascii.eqb c "-" || Ascii.eqb c ".".

Definition toLower (c : ascii) : ascii :=
  if (65 <=? code c) && (code c <=? 90) then ascii_of_nat (code c + 32) else c.

Fixpoint dropWhile (p : ascii -> bool) (cs : list ascii) : list ascii :=
  match cs with
  | [] => []
  | c :: rest => if p c then dropWhile p rest else cs
  end.

Fixpoint takeWhile (p : ascii -> bool) (cs : list ascii) : list ascii :=
  match cs with
  | [] => []
  | c :: rest => if p c then c :: takeWhile p rest else []
  end.

Definition trim (cs : list ascii) : list ascii :=
  rev (dropWhile isC0OrSpace (rev (dropWhile isC0OrSpace cs))).

(** Pieces of [cs] between occurrences of [sep]. *)
Fixpoint splitOn (sep : ascii) (cs : list ascii) : list (list ascii) :=
  match cs with
  | [] => [[]]
  | c :: rest =>
      if Ascii.eqb c sep then [] :: splitOn sep rest
      else match splitOn sep rest with
           | [] => [[c]]
           | piece :: pieces => (c :: piece) :: pieces
           end
  end.

Definition hexValue (c : ascii) : option nat :=
  if isDigit c then Some (code c - 48)
  else if (97 <=? code c) && (code c <=? 102) then Some (code c - 87)
  else if (65 <=? code c) && (code c <=? 70) then Some (code c - 55)
  else None.

(** A percent sign followed by two hexadecimal digits stands for one byte;
    any other percent sign stands for itself. *)
Fixpoint percentDecode (cs : list ascii) : list ascii :=
  match cs with
  | [] => []
  | c :: rest =>
      if Ascii.eqb c "%" then
        match rest with
        | h :: l :: rest' =>
            match hexValue h, hexValue l with
            | Some a, Some b => ascii_of_nat (16 * a + b) :: percentDecode rest'
            | _, _ => c :: percentDecode rest
            end
        | _ => c :: percentDecode rest
        end
      else c :: percentDecode rest
  end.

Definition plusToSpace (c : ascii) : ascii :=
  if Ascii.eqb c "+" then " "%char else c.

Definition decodeComponent (cs : list ascii) : string :=
  string_of_list_ascii (percentDecode (map plusToSpace cs)).

(** One [name=value] piece of a query; a piece without [=] has an empty
    value. *)
Definition parsePair (piece : list ascii) : string * string :=
  let name := takeWhile (fun c => negb (Ascii.eqb c "=")) piece in
  let value := tl (dropWhile (fun c => negb (Ascii.eqb c "=")) piece) in
  (decodeComponent name, decodeComponent value).

(** The [application/x-www-form-urlencoded] parser applied to a query. *)
Definition parseUrlencoded (query : list ascii) : list (string * string) :=
  map parsePair
      (filter (fun piece => negb (Nat.eqb (List.length piece) 0))
              (splitOn "&" query)).

(** The special schemes whose URLs must name a host ([file] may not). *)
Definition schemeNeedsHost (s : string) : bool :=
  existsb (String.eqb s) ["http"; "https"; "ws"; "wss"; "ftp"].

Definition isSlash (c : ascii) : bool :=
  Ascii.eqb c "/" || Ascii.eqb c "\".

(** The host of the authority that follows a special scheme: what comes
    after the last [@] and before the port. *)
Definition hostOf (afterScheme : list ascii) : list ascii :=
  let authority := takeWhile (fun c => negb (isSlash c))
                             (dropWhile isSlash afterScheme) in
  let hostport := List.last (splitOn "@" authority) [] in
  takeWhile (fun c => negb (Ascii.eqb c ":")) hostport.

Definition invalidUrl {A : Type} : Js.completion A :=
  Js.Throw "TypeError: Invalid URL".

(** [new URL(input)] without a base, restricted to what decides whether the
    constructor throws for lack of a scheme or of a host, and to the query.
    Host, port and code-point validation of the full algorithm are left
    out, so this parser accepts some inputs that the runtime rejects; the
    general properties of [extractPageToken] are stated for every parser. *)
Definition parse (input : string) : Js.completion URL :=
  let cs := filter (fun c => negb (isTabOrNewline c))
                   (trim (list_ascii_of_string input)) in
  match cs with
  | [] => invalidUrl
  | c :: _ =>
      if isAlpha c then
        let sch := string_of_list_ascii (map toLower (takeWhile isSchemeChar cs)) in
        match dropWhile isSchemeChar cs with
        | colon :: afterScheme =>
            if Ascii.eqb colon ":" then
              let beforeFragment :=
                takeWhile (fun c => negb (Ascii.eqb c "#")) afterScheme in
              let hier :=
                takeWhile (fun c => negb (Ascii.eqb c "?")) beforeFragment in
              let query :=
                tl (dropWhile (fun c => negb (Ascii.eqb c "?")) beforeFragment) in
              if schemeNeedsHost sch && Nat.eqb (List.length (hostOf hier)) 0
              then invalidUrl
              else Js.Normal {| scheme := sch;
                                searchParams := parseUrlencoded query |}
            else invalidUrl
        | [] => invalidUrl
        end
      else invalidUrl
  end.

End Url.

(** ** Pagination helper *)

Section Pagination.

(** The URL constructor of the runtime. *)
Variable newURL : string -> Js.completion Url.URL.

(** [extractPageToken(url)]; [None] is JavaScript's [null]. The guard
    [!url] also catches the empty string. *)
Definition extractPageToken (url : option string)
  : Js.completion (option string) :=
  if negb (Js.truthy_string url) then Js.Normal None
  else
    Js.try_catch
      (match newURL (default "" url) with
       | Js.Normal parsedUrl =>
           Js.Normal (Url.get "page_token" (Url.searchParams parsedUrl))
       | Js.Throw e => Js.Throw e
       end)
      (Js.Normal None).

End Pagination.

(** ** Dispatcher *)

Module Dispatcher.

(** What one transport call ends in. *)
Inductive TransportResult : Type :=
| Responded (status : Z) (body : ResponseData)
| TimedOut
| ConnectionFailed.

(** Modelled from the spec: the retry policy of the Dispatcher, which lives
    in the package [@nuecms/sdk-builder] and is not part of the sources. The
    delay parameters only set how long a retry waits and are left out. *)
Record RetryPolicy : Type := mkRetryPolicy {
  rp_maxRetries : Z;
  rp_retryableStatus : Z -> bool;
  rp_delivered : Z -> bool
}.

(** Modelled from the spec: the states of one invocation,
    [PREPARED -> SENT -> (SUCCEEDED | RETRYING -> SENT | FAILED)]. *)
Inductive Phase : Type :=
| PREPARED
| SENT (result : TransportResult)
| RETRYING
| SUCCEEDED (body : ResponseData)
| FAILED (last : TransportResult).

(** [retries] counts the retries made so far, [calls] the transport calls. *)
Record State : Type := mkState {
  phase : Phase;
  retries : nat;
  calls : nat
}.

Definition initial : State :=
  {| phase := PREPARED; retries := 0; calls := 0 |}.

(** The behaviour of the network: the result of the n-th transport call. *)
Definition Transport : Type := nat -> TransportResult.

(** A response counts as delivered when the status predicate accepts it. *)
Definition isFailure (p : RetryPolicy) (res : TransportResult) : bool :=
  match res with
  | Responded status _ => negb (rp_delivered p status)
  | TimedOut | ConnectionFailed => true
  end.

(** Transport failures and timeouts are always retryable; a failed response
    is when the policy's predicate says so. *)
Definition isRetryable (p : RetryPolicy) (res : TransportResult) : bool :=
  match res with
  | Responded status _ => rp_retryableStatus p status
  | TimedOut | ConnectionFailed => true
  end.

(** Modelled from the spec: one transition of the state machine. A terminal
    state has no successor. *)
Definition step (p : RetryPolicy) (t : Transport) (st : State)
  : option State :=
  match phase st with
  | PREPARED =>
      Some {| phase := SENT (t (calls st));
              retries := retries st;
              calls := S (calls st) |}
  | SENT res =>
      if isFailure p res then
        if (Z.of_nat (retries st) <? rp_maxRetries p)%Z && isRetryable p res
        then Some {| phase := RETRYING;
                     retries := retries st; calls := calls st |}
        else Some {| phase := FAILED res;
                     retries := retries st; calls := calls st |}
      else
        match res with
        | Responded _ body =>
            Some {| phase := SUCCEEDED body;
                    retries := retries st; calls := calls st |}
        | _ => None
        end
  | RETRYING =>
      Some {| phase := SENT (t (calls st));
              retries := S (retries st);
              calls := S (calls st) |}
  | SUCCEEDED _ | FAILED _ => None
  end.

Fixpoint run (fuel : nat) (p : RetryPolicy) (t : Transport) (st : State)
  : State :=
  match fuel with
  | O => st
  | S fuel' =>
      match step p t st with
      | Some st' => run fuel' p t st'
      | None => st
      end
  end.

Definition isTerminal (st : State) : bool :=
  match phase st with
  | SUCCEEDED _ | FAILED _ => true
  | _ => false
  end.

(** Every attempt takes two transitions, so this many always suffice. *)
Definition fuelFor (p : RetryPolicy) : nat :=
  2 * (Z.to_nat (rp_maxRetries p) + 1).

(** Modelled from the spec: one invocation, run to its terminal state. *)
Definition dispatch (p : RetryPolicy) (t : Transport) : State :=
  run (fuelFor p) p t initial.

(** The policy the builder derives from its configuration. Only
    [maxRetries] and the status predicate come from the configuration; the
    retryable-status predicate is the builder's own. *)
Definition policyOf (c : SdkBuilderConfig) (retryable : Z -> bool)
  : RetryPolicy :=
  {| rp_maxRetries := maxRetries c;
     rp_retryableStatus := retryable;
     rp_delivered := validateStatus c |}.

End Dispatcher.

(** ** The earlier revision of the interceptor *)

Module Legacy.

Definition defaultApiVersion : string := "2025-02-24.acacia".

(** The earlier revision takes the resolved URL as a third argument and
    writes the content type into the headers. *)
Definition reqInterceptor (cfg : ContextConfig) (options : RequestOptions)
    (url : string) (rs : RandomSource) : RequestOptions * RandomSource :=
  let (requestId, rs') := createRequestId rs in
  let isV2 := isV2Endpoint url in
  let headers' :=
    <["Idempotency-Key" := requestId]>
      (<["Stripe-Version" :=
           Js.or_string (Some (apiVersion cfg)) defaultApiVersion]>
         (<["Authorization" := "Bearer " ++ apiKey cfg]>
            (spread (headers options)))) in
  ({| path := path options;
      headers :=
        Some (<["Content-Type" :=
                  if isV2 then "application/json"
                  else "application/x-www-form-urlencoded"]> headers');
      contentType := contentType options;
      otherFields := otherFields options |},
   rs').

End Legacy.

(** ** Predicates used in the statements *)

Definition isLowerHex (c : ascii) : bool :=
  let n := nat_of_ascii c in
  ((48 <=? n)%nat && (n <=? 57)%nat) || ((97 <=? n)%nat && (n <=? 102)%nat).

Definition allLowerHex (s : string) : bool :=
  forallb isLowerHex (list_ascii_of_string s).

Fixpoint countHyphens (s : string) : nat :=
  match s with
  | EmptyString => 0
  | String c s' =>
      if Ascii.eqb c "-"%char then S (countHyphens s') else countHyphens s'
  end.

(** [v] is the value of the first pair named [name]. *)
Definition firstValue (name : string) (params : list (string * string))
    (v : string) : Prop :=
  exists before after : list (string * string),
    params = (before ++ (name, v) :: after)%list /\
    Forall (fun kv => fst kv <> name) before.

Definition lacksParam (name : string) (params : list (string * string))
  : Prop :=
  Forall (fun kv => fst kv <> name) params.

(** What the pagination helper is meant to return for an input, case by
    case, relative to a URL constructor. *)
Inductive PageTokenOf (newURL : string -> Js.completion Url.URL)
  : option string -> option string -> Prop :=
| token_of_null :
    PageTokenOf newURL None None
| token_of_empty :
    PageTokenOf newURL (Some "") None
| token_of_malformed (s e : string) :
    newURL s = Js.Throw e ->
    PageTokenOf newURL (Some s) None
| token_of_lacking (s : string) (u : Url.URL) :
    newURL s = Js.Normal u ->
    lacksParam "page_token" (Url.searchParams u) ->
    PageTokenOf newURL (Some s) None
| token_of_carrying (s : string) (u : Url.URL) (v : string) :
    s <> "" ->
    newURL s = Js.Normal u ->
    firstValue "page_token" (Url.searchParams u) v ->
    PageTokenOf newURL (Some s) (Some v).

(** The headers the interceptor sends, given the caller's. *)
Definition outgoingHeaders (cfg : ContextConfig)
    (h : option (gmap string string)) (requestId : string)
  : gmap string string :=
  <["Idempotency-Key" := requestId]>
    (<["Stripe-Version" :=
         Js.or_string (Some (apiVersion cfg)) defaultApiVersion]>
       (<["Authorization" := "Bearer " ++ apiKey cfg]> (spread h))).

(** A random source whose every byte is the given one. *)
Definition constantSource (b : Byte.byte) : RandomSource :=
  {| pool := fun _ => b; cursor := 0 |}.

Definition exampleConfig : StripeSDKConfig :=
  {| cfg_apiKey := "sk_test_123";
     cfg_endpoint := None;
     cfg_timeout := None;
     cfg_maxRetries := None;
     cfg_apiVersion := None;
     cfg_cacheProvider := None;
     cfg_customResponseTransformer := None |}.

Definition exampleOptions (p : string) (h : option (gmap string string))
  : RequestOptions :=
  {| path := Some p; headers := h; contentType := None;
     otherFields := {[ "method" := JsString "POST" ]} |}.

(** ** Route tables of the earlier revision *)

Definition legacyV1Routes : list (string * string * Verb) :=
  [ ("getBalance", "/v1/balance", GET);
    ("getBalanceTransaction", "/v1/balance/history/{transaction_id}", GET);
    ("createCharge", "/v1/charges", POST);
    ("getCharge", "/v1/charges/{charge_id}", GET);
    ("updateCharge", "/v1/charges/{charge_id}", POST);
    ("captureCharge", "/v1/charges/{charge_id}/capture", POST);
    ("createCustomer", "/v1/customers", POST);
    ("getCustomer", "/v1/customers/{customer_id}", GET);
    ("updateCustomer", "/v1/customers/{customer_id}", POST);
    ("deleteCustomer", "/v1/customers/{customer_id}", DELETE);
    ("listCustomers", "/v1/customers", GET);
    ("createPaymentMethod", "/v1/payment_methods", POST);
    ("getPaymentMethod", "/v1/payment_methods/{payment_method_id}", GET);
    ("updatePaymentMethod", "/v1/payment_methods/{payment_method_id}", POST);
    ("attachPaymentMethod", "/v1/payment_methods/{payment_method_id}/attach", POST);
    ("detachPaymentMethod", "/v1/payment_methods/{payment_method_id}/detach", POST);
    ("createPaymentIntent", "/v1/payment_intents", POST);
    ("getPaymentIntent", "/v1/payment_intents/{payment_intent_id}", GET);
    ("updatePaymentIntent", "/v1/payment_intents/{payment_intent_id}", POST);
    ("confirmPaymentIntent", "/v1/payment_intents/{payment_intent_id}/confirm", POST);
    ("cancelPaymentIntent", "/v1/payment_intents/{payment_intent_id}/cancel", POST);
    ("capturePaymentIntent", "/v1/payment_intents/{payment_intent_id}/capture", POST);
    ("createSetupIntent", "/v1/setup_intents", POST);
    ("getSetupIntent", "/v1/setup_intents/{setup_intent_id}", GET);
    ("updateSetupIntent", "/v1/setup_intents/{setup_intent_id}", POST);
    ("confirmSetupIntent", "/v1/setup_intents/{setup_intent_id}/confirm", POST);
    ("cancelSetupIntent", "/v1/setup_intents/{setup_intent_id}/cancel", POST);
    ("createRefund", "/v1/refunds", POST);
    ("getRefund", "/v1/refunds/{refund_id}", GET);
    ("updateRefund", "/v1/refunds/{refund_id}", POST);
    ("cancelRefund", "/v1/refunds/{refund_id}/cancel", POST);
    ("createProduct", "/v1/products", POST);
    ("getProduct", "/v1/products/{product_id}", GET);
    ("updateProduct", "/v1/products/{product_id}", POST);
    ("deleteProduct", "/v1/products/{product_id}", DELETE);
    ("listProducts", "/v1/products", GET);
    ("createPrice", "/v1/prices", POST);
    ("getPrice", "/v1/prices/{price_id}", GET);
    ("updatePrice", "/v1/prices/{price_id}", POST);
    ("listPrices", "/v1/prices", GET);
    ("createSubscription", "/v1/subscriptions", POST);
    ("getSubscription", "/v1/subscriptions/{subscription_id}", GET);
    ("updateSubscription", "/v1/subscriptions/{subscription_id}", POST);
    ("cancelSubscription", "/v1/subscriptions/{subscription_id}", DELETE);
    ("createInvoice", "/v1/invoices", POST);
    ("getInvoice", "/v1/invoices/{invoice_id}", GET);
    ("updateInvoice", "/v1/invoices/{invoice_id}", POST);
    ("finalizeInvoice", "/v1/invoices/{invoice_id}/finalize", POST);
    ("payInvoice", "/v1/invoices/{invoice_id}/pay", POST);
    ("voidInvoice", "/v1/invoices/{invoice_id}/void", POST);
    ("constructEvent", "/v1/webhook/construct-event", POST) ].

Definition legacyV2Routes : list (string * string * Verb) :=
  [ ("v2CreateMeterEvent", "/v2/billing/meter_events", POST);
    ("v2GetMeterEvent", "/v2/billing/meter_events/{meter_event_id}", GET);
    ("v2ListMeterEvents", "/v2/billing/meter_events", GET);
    ("v2CreateMeterEventAdjustment", "/v2/billing/meter_event_adjustments", POST);
    ("v2GetMeterEventAdjustment", "/v2/billing/meter_event_adjustments/{meter_event_adjustment_id}", GET);
    ("v2ListMeterEventAdjustments", "/v2/billing/meter_event_adjustments", GET);
    ("v2CreateMeterEventSession", "/v2/billing/meter_event_session", POST);
    ("v2CreateMeterEventStream", "/v2/billing/meter_event_stream", POST);
    ("v2CreateEventDestination", "/v2/core/event_destinations", POST);
    ("v2GetEventDestination", "/v2/core/event_destinations/{id}", GET);
    ("v2UpdateEventDestination", "/v2/core/event_destinations/{id}", POST);
    ("v2ListEventDestinations", "/v2/core/event_destinations", GET);
    ("v2DeleteEventDestination", "/v2/core/event_destinations/{id}", DELETE);
    ("v2DisableEventDestination", "/v2/core/event_destinations/{id}/disable", POST);
    ("v2EnableEventDestination", "/v2/core/event_destinations/{id}/enable", POST);
    ("v2PingEventDestination", "/v2/core/event_destinations/{id}/ping", POST);
    ("v2GetEvent", "/v2/core/events/{event_id}", GET);
    ("v2ListEvents", "/v2/core/events", GET) ].

(** ** Reading a route *)

Definition routeName (route : string * string * Verb) : string :=
  fst (fst route).

Definition routeTemplate (route : string * string * Verb) : string :=
  snd (fst route).

Definition routeVerb (route : string * string * Verb) : Verb :=
  snd route.

(** The routes [stripeSdk] registers, in order of registration. *)
Definition allRoutes : list (string * string * Verb) :=
  (v1Routes ++ v2Routes)%list.

(** Characters a page token is made of when it needs no escaping. *)
Definition isTokenChar (c : ascii) : bool :=
  Url.isAlpha c || Url.isDigit c || Ascii.eqb c "_" || Ascii.eqb c "-".

Definition isToken (s : string) : bool :=
  forallb isTokenChar (list_ascii_of_string s).

(** ** The demonstration server *)

Module Server.

(** What [handleRequest] reads of the incoming message: the method, the
    URL, the [content-type] header and the chunks of the body, each already
    turned into a string. *)
Record IncomingMessage : Type := mkIncomingMessage {
  method : string;
  url : option string;
  contentTypeHeader : option string;
  chunks : list string
}.

(** What it writes: [res.writeHead(status, { 'Content-Type': ... })] and
    [res.end(payload)]. *)
Record ServerResponse : Type := mkServerResponse {
  statusCode : Z;
  contentTypeOut : string;
  payload : string
}.

(** The six entries of the [routes] object, by the work their handlers do. *)
Inductive Handler : Type :=
| Webhook
| Success
| CreatePaymentIntent
| GetPaymentIntent
| ConfirmPaymentIntent
| CreateRefund.

(** The [routes] object: keys in insertion order. *)
Definition routes : list (string * Handler) :=
  [ ("POST /webhook", Webhook);
    ("GET /success", Success);
    ("GET /create-payment-intent", CreatePaymentIntent);
    ("GET /get-payment-intent", GetPaymentIntent);
    ("GET /confirm-payment-intent", ConfirmPaymentIntent);
    ("GET /create-refund", CreateRefund) ].

(** [const [method, path] = key.split(' ')]: a missing second piece is
    [undefined], which [startsWith] reads as the string of that name. *)
Definition splitKey (key : string) : string * string :=
  match map string_of_list_ascii
            (Url.splitOn " " (list_ascii_of_string key)) with
  | m :: p :: _ => (m, p)
  | [m] => (m, "undefined")
  | [] => ("undefined", "undefined")
  end.

(** [req.method === method && req.url?.startsWith(path)] *)
Definition matches (req : IncomingMessage) (key : string) : bool :=
  let (m, p) := splitKey key in
  String.eqb (method req) m &&
  match url req with
  | Some u => String.prefix p u
  | None => false
  end.

(** The [for ... of Object.entries(routes)] loop: the first match wins. *)
Fixpoint findRoute (req : IncomingMessage) (table : list (string * Handler))
  : option Handler :=
  match table with
  | [] => None
  | (key, h) :: rest => if matches req key then Some h else findRoute req rest
  end.

(** How a call of the SDK made by a handler ends: with a response, given by
    its JSON text, or with an error, given by its message. *)
Inductive SdkOutcome : Type :=
| Resolved (json : string)
| Rejected (message : string).

Section Handling.

(** Parsed JSON values and parsed form bodies are opaque here. *)
Context {Json Form : Type}.

(** [JSON.parse] may throw; [querystring.parse] accepts every string. *)
Variable JSONparse : string -> Js.completion Json.
Variable querystringParse : string -> Form.

(** The outcome of the SDK call a handler makes. *)
Variable sdkCall : Handler -> SdkOutcome.

(** The JSON text of the query parameters of a URL that starts with
    [/success], read against the local base. *)
Variable successParams : string -> string.

Inductive Body : Type :=
| JsonBody (v : Json)
| FormBody (f : Form)
| RawBody (s : string).

(** [body += chunk.toString()] for every chunk. *)
Definition collectBody (req : IncomingMessage) : string :=
  fold_left (fun body chunk => body ++ chunk) (chunks req) "".

(** The choice of a parser by the exact value of the header. *)
Definition parseBody (contentType : option string) (body : string)
  : Js.completion Body :=
  match contentType with
  | Some ct =>
      if String.eqb ct "application/json" then
        match JSONparse body with
        | Js.Normal v => Js.Normal (JsonBody v)
        | Js.Throw e => Js.Throw e
        end
      else if String.eqb ct "application/x-www-form-urlencoded" then
        Js.Normal (FormBody (querystringParse body))
      else Js.Normal (RawBody body)
  | None => Js.Normal (RawBody body)
  end.

Definition quote : string := String (ascii_of_nat 34) "".

Definition notFound : ServerResponse :=
  {| statusCode := 404; contentTypeOut := "text/plain";
     payload := "Not Found" |}.

(** [JSON.stringify({ error: 'Invalid data format' })] *)
Definition invalidData : ServerResponse :=
  {| statusCode := 400; contentTypeOut := "application/json";
     payload := "{" ++ quote ++ "error" ++ quote ++ ":" ++ quote
                ++ "Invalid data format" ++ quote ++ "}" |}.

(** A handler that calls the SDK answers with the response as JSON, or
    with status 500 and the message of the error. *)
Definition answerSdk (outcome : SdkOutcome) : ServerResponse :=
  match outcome with
  | Resolved json =>
      {| statusCode := 200; contentTypeOut := "application/json";
         payload := json |}
  | Rejected message =>
      {| statusCode := 500; contentTypeOut := "text/plain";
         payload := message |}
  end.

(** What the handler of a route writes. *)
Definition runHandler (h : Handler) (req : IncomingMessage)
  : ServerResponse :=
  match h with
  | Webhook =>
      {| statusCode := 200; contentTypeOut := "text/plain";
         payload := "success" |}
  | Success =>
      {| statusCode := 200; contentTypeOut := "text/plain";
         payload := successParams (default "" (url req)) |}
  | _ => answerSdk (sdkCall h)
  end.

Definition route (req : IncomingMessage) : ServerResponse :=
  match findRoute req routes with
  | Some h => runHandler h req
  | None => notFound
  end.

(** [handleRequest(req, res)]: a POST has its body collected and parsed
    first, inside a [try] whose [catch] answers with status 400; every
    other method is routed at once. The parsed body is stored on the
    request for the handler to log. *)
Definition handleRequest (req : IncomingMessage) : ServerResponse :=
  if String.eqb (method req) "POST" then
    match parseBody (contentTypeHeader req) (collectBody req) with
    | Js.Normal _ => route req
    | Js.Throw _ => invalidData
    end
  else route req.

End Handling.

End Server.

(** * Properties *)

(** ** Construction *)

Section Construction.

Lemma registerAll_config routes sdk :
  sdk_config (registerAll routes sdk) = sdk_config sdk.
Proof.
  unfold registerAll. revert sdk.
  induction routes as [| [[name tpl] verb] routes IH]; intros sdk; simpl.
  - reflexivity.
  - rewrite IH. reflexivity.
Qed.

Lemma registerAll_interceptors routes sdk :
  sdk_interceptors (registerAll routes sdk) = sdk_interceptors sdk.
Proof.
  unfold registerAll. revert sdk.
  induction routes as [| [[name tpl] verb] routes IH]; intros sdk; simpl.
  - reflexivity.
  - rewrite IH. reflexivity.
Qed.

(** The facade carries the configuration object built from the caller's. *)
Lemma stripeSdk_config c : sdk_config (stripeSdk c) = sdkConfig c.
Proof.
  unfold stripeSdk, registerV2Endpoints, registerV1Endpoints.
  rewrite !registerAll_config. reflexivity.
Qed.

(** The chain of a fresh facade holds the one interceptor of this module. *)
Lemma stripeSdk_interceptors c :
  sdk_interceptors (stripeSdk c) = [("reqInterceptor", reqInterceptor)].
Proof.
  unfold stripeSdk, registerV2Endpoints, registerV1Endpoints.
  rewrite !registerAll_interceptors. reflexivity.
Qed.

(** So the request phase of a fresh facade is that interceptor, applied to
    the context configuration. *)
Lemma requestPhase_stripeSdk c options rs :
  requestPhase (stripeSdk c) options rs =
  reqInterceptor (config (sdkConfig c)) options rs.
Proof.
  unfold requestPhase.
  rewrite stripeSdk_interceptors, stripeSdk_config. cbn [runChain].
  destruct (reqInterceptor (config (sdkConfig c)) options rs) as [[o' | e] rs'];
    reflexivity.
Qed.

End Construction.

(** C6: the status predicate installed in the builder configuration accepts
    a status exactly when it lies in the half-open interval from 200 to 500;
    every other status, all of 5xx included, is a failure. *)
Theorem validateStatus_delivered_iff (c : StripeSDKConfig) (status : Z) :
  validateStatus (sdk_config (stripeSdk c)) status = true
  <-> (200 <= status < 500)%Z.
Proof.
  rewrite stripeSdk_config. simpl.
  rewrite andb_true_iff, Z.leb_le, Z.ltb_lt. reflexivity.
Qed.

Corollary validateStatus_5xx_fails (c : StripeSDKConfig) (status : Z) :
  (500 <= status)%Z -> validateStatus (sdkConfig c) status = false.
Proof.
  intros H. simpl. apply andb_false_iff. right. apply Z.ltb_ge. exact H.
Qed.

(** C7: a caller who leaves out [timeout] and [maxRetries] gets a timeout of
    10000 ms and no retries; one who leaves out [endpoint] gets the Stripe
    base URL. *)
Theorem stripeSdk_defaults (c : StripeSDKConfig) :
  cfg_timeout c = None ->
  cfg_maxRetries c = None ->
  timeout (config (sdk_config (stripeSdk c))) = 10000%Z /\
  maxRetries (sdk_config (stripeSdk c)) = 0%Z /\
  (cfg_endpoint c = None ->
   baseUrl (sdk_config (stripeSdk c)) = "https://api.stripe.com").
Proof.
  intros Ht Hr. rewrite stripeSdk_config. simpl.
  rewrite Ht, Hr. repeat split.
  intros He. rewrite He. reflexivity.
Qed.

Lemma stripeSdk_defaults_witness :
  timeout (config (sdk_config (stripeSdk exampleConfig))) = 10000%Z /\
  maxRetries (sdk_config (stripeSdk exampleConfig)) = 0%Z /\
  baseUrl (sdk_config (stripeSdk exampleConfig)) = "https://api.stripe.com".
Proof.
  destruct (stripeSdk_defaults exampleConfig eq_refl eq_refl) as (Ht & Hr & Hb).
  exact (conj Ht (conj Hr (Hb eq_refl))).
Defined.

(** C10: [timeout], [endpoint] and [apiVersion] are defaulted with [||], so
    a present but falsy value (0, the empty string) is replaced; [maxRetries]
    is defaulted with [??], so every present value, 0 included, is kept. *)
Theorem stripeSdk_falsy_defaulting
    (key : string) (e : option string) (t r : option Z) (v : option string)
    (cp : option CacheProvider) (tr : option (ResponseData -> ResponseData))
    (n : Z) :
  let built c := sdk_config (stripeSdk c) in
  timeout (config (built (mkStripeSDKConfig key e (Some 0%Z) r v cp tr)))
    = 10000%Z /\
  baseUrl (built (mkStripeSDKConfig key (Some "") t r v cp tr))
    = "https://api.stripe.com" /\
  endpoint (config (built (mkStripeSDKConfig key (Some "") t r v cp tr)))
    = "https://api.stripe.com" /\
  apiVersion (config (built (mkStripeSDKConfig key e t r (Some "") cp tr)))
    = defaultApiVersion /\
  maxRetries (built (mkStripeSDKConfig key e t (Some 0%Z) v cp tr)) = 0%Z /\
  maxRetries (built (mkStripeSDKConfig key e t (Some n) v cp tr)) = n.
Proof.
  intros built. unfold built. rewrite !stripeSdk_config. simpl.
  repeat split.
Qed.

(** ** The request-phase interceptor *)

Section Interceptor.

Lemma append_cons (c : ascii) (a rest : string) :
  String c a ++ rest = String c (a ++ rest).
Proof. reflexivity. Qed.

Lemma prefix_iff_append (a b : string) :
  String.prefix a b = true <-> exists rest, b = a ++ rest.
Proof.
  revert b. induction a as [| c a IH]; intros b.
  - split.
    + intros _. exists b. reflexivity.
    + intros _. destruct b; reflexivity.
  - destruct b as [| d b].
    + split; [discriminate |].
      intros [rest H]. rewrite append_cons in H. discriminate H.
    + change (String.prefix (String c a) (String d b))
        with (if ascii_dec c d then String.prefix a b else false).
      destruct (ascii_dec c d) as [-> | Hne].
      * rewrite IH. split; intros [rest H]; exists rest.
        -- rewrite append_cons, H. reflexivity.
        -- rewrite append_cons in H. injection H as H. exact H.
      * split; [discriminate |].
        intros [rest H]. rewrite append_cons in H.
        injection H as H1 H2. congruence.
Qed.

(** With a path present the interceptor returns; the random source has
    moved on by one token. *)
Lemma reqInterceptor_returns cfg options rs p :
  path options = Some p ->
  reqInterceptor cfg options rs =
  (Js.Normal
     {| path := Some p;
        headers :=
          Some (outgoingHeaders cfg (headers options)
                                (fst (createRequestId rs)));
        contentType :=
          Some (if isV2Endpoint p then "application/json"
                else "application/x-www-form-urlencoded");
        otherFields := otherFields options |},
   snd (createRequestId rs)).
Proof.
  intros Hp. unfold reqInterceptor, outgoingHeaders.
  destruct (createRequestId rs) as [requestId rs'].
  rewrite Hp. reflexivity.
Qed.

(** Without a path, as with the default [{}], it throws and nothing is
    returned. *)
Lemma reqInterceptor_throws cfg options rs :
  path options = None ->
  exists e, fst (reqInterceptor cfg options rs) = Js.Throw e.
Proof.
  intros Hp. unfold reqInterceptor.
  destruct (createRequestId rs) as [requestId rs'].
  rewrite Hp. eexists. reflexivity.
Qed.

Example reqInterceptor_noOptions cfg rs :
  exists e, fst (reqInterceptor cfg noOptions rs) = Js.Throw e.
Proof. apply reqInterceptor_throws. reflexivity. Qed.

Lemma outgoingHeaders_authorization cfg h requestId :
  outgoingHeaders cfg h requestId !! "Authorization"
  = Some ("Bearer " ++ apiKey cfg).
Proof. unfold outgoingHeaders. by simplify_map_eq. Qed.

Lemma outgoingHeaders_version cfg h requestId :
  outgoingHeaders cfg h requestId !! "Stripe-Version"
  = Some (Js.or_string (Some (apiVersion cfg)) defaultApiVersion).
Proof. unfold outgoingHeaders. by simplify_map_eq. Qed.

Lemma outgoingHeaders_idempotency cfg h requestId :
  outgoingHeaders cfg h requestId !! "Idempotency-Key" = Some requestId.
Proof. unfold outgoingHeaders. by simplify_map_eq. Qed.

Lemma outgoingHeaders_other cfg h requestId (name : string) :
  name <> "Authorization" ->
  name <> "Stripe-Version" ->
  name <> "Idempotency-Key" ->
  outgoingHeaders cfg h requestId !! name = spread h !! name.
Proof.
  intros Ha Hv Hi. unfold outgoingHeaders.
  rewrite !lookup_insert_ne by congruence. reflexivity.
Qed.

(** The version the facade's context carries is never empty, so the
    interceptor's own defaulting leaves it alone. *)
Lemma context_version c :
  Js.or_string (Some (apiVersion (config (sdkConfig c)))) defaultApiVersion
  = Js.or_string (cfg_apiVersion c) defaultApiVersion.
Proof.
  simpl. destruct (cfg_apiVersion c) as [v |]; simpl; [| reflexivity].
  destruct (String.eqb v "") eqn:E; simpl; [reflexivity |].
  rewrite E. reflexivity.
Qed.

End Interceptor.

(** C1: for every resolved path, the installed interceptor sets the content
    type to JSON when the path starts with [/v2/], and to form encoding
    when it does not. *)
Theorem reqInterceptor_content_type
    (c : StripeSDKConfig) (options : RequestOptions) (rs : RandomSource)
    (p : string) :
  path options = Some p ->
  exists options',
    fst (requestPhase (stripeSdk c) options rs) = Js.Normal options' /\
    ((exists rest, p = "/v2/" ++ rest) ->
     contentType options' = Some "application/json") /\
    (~ (exists rest, p = "/v2/" ++ rest) ->
     contentType options' = Some "application/x-www-form-urlencoded").
Proof.
  intros Hp. rewrite requestPhase_stripeSdk.
  rewrite (reqInterceptor_returns _ _ _ p Hp). cbn [fst].
  eexists. split; [reflexivity |]. cbn [contentType].
  unfold isV2Endpoint. split; intros H.
  - apply prefix_iff_append in H. rewrite H. reflexivity.
  - destruct (String.prefix "/v2/" p) eqn:E; [| reflexivity].
    exfalso. apply H. apply prefix_iff_append. exact E.
Qed.

Lemma reqInterceptor_content_type_witness :
  exists options',
    fst (requestPhase (stripeSdk exampleConfig)
           (exampleOptions "/v2/billing/meter_events" None)
           (constantSource Byte.x00)) = Js.Normal options' /\
    contentType options' = Some "application/json".
Proof.
  destruct (reqInterceptor_content_type exampleConfig
              (exampleOptions "/v2/billing/meter_events" None)
              (constantSource Byte.x00) "/v2/billing/meter_events" eq_refl)
    as (options' & Hrun & Hjson & _).
  exists options'. split; [exact Hrun |].
  apply Hjson. exists "billing/meter_events". reflexivity.
Defined.

(** C4: the options returned by the installed interceptor carry an
    [Authorization] header made of [Bearer ] and the configured key, a
    [Stripe-Version] header with the configured version, or the module's
    default when none was configured, and an [Idempotency-Key] header. An
    empty version string counts as none. *)
Theorem reqInterceptor_sets_headers
    (c : StripeSDKConfig) (options : RequestOptions) (rs : RandomSource)
    (p : string) :
  path options = Some p ->
  exists options' h,
    fst (requestPhase (stripeSdk c) options rs) = Js.Normal options' /\
    headers options' = Some h /\
    h !! "Authorization" = Some ("Bearer " ++ cfg_apiKey c) /\
    (forall v, cfg_apiVersion c = Some v -> v <> "" ->
               h !! "Stripe-Version" = Some v) /\
    (cfg_apiVersion c = None \/ cfg_apiVersion c = Some "" ->
     h !! "Stripe-Version" = Some defaultApiVersion) /\
    is_Some (h !! "Idempotency-Key").
Proof.
  intros Hp. rewrite requestPhase_stripeSdk.
  rewrite (reqInterceptor_returns _ _ _ p Hp). cbn [fst].
  do 2 eexists. split; [reflexivity |]. split; [reflexivity |].
  rewrite outgoingHeaders_authorization, outgoingHeaders_version,
    outgoingHeaders_idempotency, context_version.
  repeat split.
  - intros v Hv Hne. rewrite Hv. simpl.
    destruct (String.eqb_spec v ""); [contradiction | reflexivity].
  - intros [Hv | Hv]; rewrite Hv; reflexivity.
  - eexists. reflexivity.
Qed.

Lemma reqInterceptor_sets_headers_witness :
  exists options' h,
    fst (requestPhase (stripeSdk exampleConfig)
           (exampleOptions "/v1/customers" None)
           (constantSource Byte.x00)) = Js.Normal options' /\
    headers options' = Some h /\
    h !! "Authorization" = Some "Bearer sk_test_123" /\
    h !! "Stripe-Version" = Some "2025-04-30.basil" /\
    is_Some (h !! "Idempotency-Key").
Proof.
  destruct (reqInterceptor_sets_headers exampleConfig
              (exampleOptions "/v1/customers" None)
              (constantSource Byte.x00) "/v1/customers" eq_refl)
    as (options' & h & Hrun & Hh & Hauth & _ & Hver & Hkey).
  exists options', h.
  exact (conj Hrun (conj Hh (conj Hauth
          (conj (Hver (or_introl eq_refl)) Hkey)))).
Defined.

(** C9: the interceptor touches nothing but the headers and the content
    type: a header under any other name than the four it may write is
    looked up as before, and the path and every further field of the
    options come back unchanged. *)
Theorem reqInterceptor_frame
    (c : StripeSDKConfig) (options : RequestOptions) (rs : RandomSource)
    (p : string) :
  path options = Some p ->
  exists options' h,
    fst (requestPhase (stripeSdk c) options rs) = Js.Normal options' /\
    headers options' = Some h /\
    (forall name : string,
        name <> "Authorization" -> name <> "Stripe-Version" ->
        name <> "Idempotency-Key" -> name <> "Content-Type" ->
        h !! name = spread (headers options) !! name) /\
    path options' = path options /\
    otherFields options' = otherFields options.
Proof.
  intros Hp. rewrite requestPhase_stripeSdk.
  rewrite (reqInterceptor_returns _ _ _ p Hp). cbn [fst].
  do 2 eexists. split; [reflexivity |]. split; [reflexivity |].
  repeat split.
  - intros name Ha Hv Hi _. apply outgoingHeaders_other; assumption.
  - symmetry. exact Hp.
Qed.

Lemma reqInterceptor_frame_witness :
  exists options' h,
    fst (requestPhase (stripeSdk exampleConfig)
           (exampleOptions "/v1/customers"
              (Some {[ "X-Trace" := "t-1" ]}))
           (constantSource Byte.x00)) = Js.Normal options' /\
    headers options' = Some h /\
    h !! "X-Trace" = Some "t-1" /\
    otherFields options' = {[ "method" := JsString "POST" ]}.
Proof.
  destruct (reqInterceptor_frame exampleConfig
              (exampleOptions "/v1/customers"
                 (Some {[ "X-Trace" := "t-1" ]}))
              (constantSource Byte.x00) "/v1/customers" eq_refl)
    as (options' & h & Hrun & Hh & Hother & _ & Hfields).
  exists options', h.
  refine (conj Hrun (conj Hh (conj _ Hfields))).
  rewrite (Hother "X-Trace"); [reflexivity | discriminate ..].
Defined.

(** C3, as amended: whatever the caller's headers hold, the outgoing
    [Idempotency-Key] is the token drawn for this call; a value supplied by
    the caller under that name is overwritten. *)
Theorem reqInterceptor_overwrites_idempotency_key
    (c : StripeSDKConfig) (options : RequestOptions) (rs : RandomSource)
    (p : string) :
  path options = Some p ->
  exists options' h,
    fst (requestPhase (stripeSdk c) options rs) = Js.Normal options' /\
    headers options' = Some h /\
    h !! "Idempotency-Key" = Some (fst (createRequestId rs)).
Proof.
  intros Hp. rewrite requestPhase_stripeSdk.
  rewrite (reqInterceptor_returns _ _ _ p Hp). cbn [fst].
  do 2 eexists. split; [reflexivity |]. split; [reflexivity |].
  apply outgoingHeaders_idempotency.
Qed.

Lemma reqInterceptor_overwrites_idempotency_key_witness :
  exists options' h,
    fst (requestPhase (stripeSdk exampleConfig)
           (exampleOptions "/v1/charges"
              (Some {[ "Idempotency-Key" := "caller-key-001" ]}))
           (constantSource Byte.x00)) = Js.Normal options' /\
    headers options' = Some h /\
    h !! "Idempotency-Key"
    = Some (fst (createRequestId (constantSource Byte.x00))).
Proof.
  exact (reqInterceptor_overwrites_idempotency_key exampleConfig
           (exampleOptions "/v1/charges"
              (Some {[ "Idempotency-Key" := "caller-key-001" ]}))
           (constantSource Byte.x00) "/v1/charges" eq_refl).
Defined.

(** C3, as stated, fails: a caller sends [Idempotency-Key: caller-key-001]
    on [/v1/charges]; with a random source of zero bytes the outgoing header
    is the generated token, not the caller's value. *)
Lemma caller_idempotency_key_not_preserved :
  spread (headers (exampleOptions "/v1/charges"
                     (Some {[ "Idempotency-Key" := "caller-key-001" ]})))
    !! "Idempotency-Key" = Some "caller-key-001" /\
  exists options' h,
    fst (requestPhase (stripeSdk exampleConfig)
           (exampleOptions "/v1/charges"
              (Some {[ "Idempotency-Key" := "caller-key-001" ]}))
           (constantSource Byte.x00)) = Js.Normal options' /\
    headers options' = Some h /\
    h !! "Idempotency-Key" = Some "00000000000040008000000000000000" /\
    h !! "Idempotency-Key" <> Some "caller-key-001".
Proof.
  split; [reflexivity |].
  rewrite requestPhase_stripeSdk.
  rewrite (reqInterceptor_returns _ (exampleOptions "/v1/charges" _) _
             "/v1/charges" eq_refl).
  cbn [fst].
  do 2 eexists. split; [reflexivity |]. split; [reflexivity |].
  rewrite outgoingHeaders_idempotency.
  split; [reflexivity | discriminate].
Qed.

(** ** The earlier revision *)

(** X11: The earlier revision chooses by the same prefix rule, and writes its
    choice under the [Content-Type] header. *)
Lemma legacy_content_type cfg options rs (url : string) :
  exists h,
    headers (fst (Legacy.reqInterceptor cfg options url rs)) = Some h /\
    h !! "Content-Type"
    = Some (if String.prefix "/v2/" url then "application/json"
            else "application/x-www-form-urlencoded").
Proof.
  unfold Legacy.reqInterceptor.
  destruct (createRequestId rs) as [requestId rs']. cbn [fst headers].
  eexists. split; [reflexivity |].
  rewrite lookup_insert_eq. reflexivity.
Qed.

(** X12: There too the generated token replaces the caller's, and headers under
    other names than the four written ones are looked up as before. *)
Lemma legacy_headers cfg options rs (url : string) :
  exists h,
    headers (fst (Legacy.reqInterceptor cfg options url rs)) = Some h /\
    h !! "Idempotency-Key" = Some (fst (createRequestId rs)) /\
    h !! "Authorization" = Some ("Bearer " ++ apiKey cfg) /\
    (forall name : string,
        name <> "Authorization" -> name <> "Stripe-Version" ->
        name <> "Idempotency-Key" -> name <> "Content-Type" ->
        h !! name = spread (headers options) !! name).
Proof.
  unfold Legacy.reqInterceptor.
  destruct (createRequestId rs) as [requestId rs']. cbn [fst headers].
  eexists. split; [reflexivity |]. repeat split.
  - rewrite lookup_insert_ne by discriminate. by rewrite lookup_insert_eq.
  - by simplify_map_eq.
  - intros name Ha Hv Hi Hc. rewrite !lookup_insert_ne by congruence.
    reflexivity.
Qed.

(** ** The idempotency token *)

Section Token.

Lemma isLowerHex_hexDigit (n : N) : isLowerHex (hexDigit n) = true.
Proof.
  unfold hexDigit. generalize (N.to_nat n). intros m.
  do 16 (destruct m as [| m]; [reflexivity |]).
  simpl. destruct m; reflexivity.
Qed.

Lemma lowerHex_not_hyphen (c : ascii) :
  isLowerHex c = true -> Ascii.eqb c "-" = false.
Proof.
  intros H. destruct (Ascii.eqb_spec c "-") as [-> | Hne]; [| reflexivity].
  discriminate H.
Qed.

Lemma removeHyphens_app (a b : string) :
  removeHyphens (a ++ b) = removeHyphens a ++ removeHyphens b.
Proof.
  induction a as [| c a IH]; [reflexivity |].
  rewrite append_cons. simpl. rewrite IH.
  destruct (Ascii.eqb c "-"); reflexivity.
Qed.

Lemma removeHyphens_byteToHex (b : N) :
  removeHyphens (byteToHex b) = byteToHex b.
Proof.
  unfold byteToHex. simpl.
  rewrite !lowerHex_not_hyphen by apply isLowerHex_hexDigit. reflexivity.
Qed.

Lemma hexOfBytes_cons (b : N) (bs : list N) :
  hexOfBytes (b :: bs) = byteToHex b ++ hexOfBytes bs.
Proof. reflexivity. Qed.

Lemma removeHyphens_hexOfBytes (bs : list N) :
  removeHyphens (hexOfBytes bs) = hexOfBytes bs.
Proof.
  induction bs as [| b bs IH]; [reflexivity |].
  rewrite hexOfBytes_cons, removeHyphens_app, removeHyphens_byteToHex, IH.
  reflexivity.
Qed.

Lemma hexOfBytes_app (xs ys : list N) :
  hexOfBytes (xs ++ ys) = hexOfBytes xs ++ hexOfBytes ys.
Proof.
  induction xs as [| x xs IH]; [reflexivity |].
  change ((x :: xs) ++ ys)%list with (x :: (xs ++ ys))%list.
  rewrite !hexOfBytes_cons, IH. unfold byteToHex. reflexivity.
Qed.

Lemma length_hexOfBytes (bs : list N) :
  String.length (hexOfBytes bs) = 2 * List.length bs.
Proof.
  induction bs as [| b bs IH]; [reflexivity |].
  rewrite hexOfBytes_cons. unfold byteToHex. rewrite !append_cons.
  change ("" ++ hexOfBytes bs) with (hexOfBytes bs).
  cbn [String.length List.length]. rewrite IH. lia.
Qed.

Lemma allLowerHex_hexOfBytes (bs : list N) :
  allLowerHex (hexOfBytes bs) = true.
Proof.
  unfold allLowerHex.
  induction bs as [| b bs IH]; [reflexivity |].
  rewrite hexOfBytes_cons. unfold byteToHex. rewrite !append_cons.
  change ("" ++ hexOfBytes bs) with (hexOfBytes bs).
  cbn [list_ascii_of_string forallb].
  rewrite !isLowerHex_hexDigit. exact IH.
Qed.

(** Deleting the hyphens of the textual form leaves the hexadecimal digits
    of the sixteen bytes, in order. *)
Lemma removeHyphens_serializeUUID (bs : list N) :
  removeHyphens (serializeUUID bs) = hexOfBytes bs.
Proof.
  unfold serializeUUID.
  rewrite !removeHyphens_app, !removeHyphens_hexOfBytes.
  change (removeHyphens "-") with "".
  repeat match goal with
         | |- context [ "" ++ ?x ] => change ("" ++ x) with x
         end.
  rewrite <- !hexOfBytes_app. f_equal.
  replace (drop 10 bs) with (drop 2 (drop 8 bs)) by (by rewrite drop_drop).
  rewrite take_drop.
  replace (drop 8 bs) with (drop 2 (drop 6 bs)) by (by rewrite drop_drop).
  rewrite take_drop.
  replace (drop 6 bs) with (drop 2 (drop 4 bs)) by (by rewrite drop_drop).
  rewrite take_drop. apply take_drop.
Qed.

Lemma length_removeHyphens (s : string) :
  String.length s = String.length (removeHyphens s) + countHyphens s.
Proof.
  induction s as [| c s IH]; [reflexivity |].
  simpl. destruct (Ascii.eqb c "-"); simpl; lia.
Qed.

Lemma version_nibble (b : Byte.byte) :
  hexDigit (N.shiftr (N.lor (N.land (Byte.to_N b) 15) 64) 4) = "4"%char.
Proof. destruct b; reflexivity. Qed.

Lemma variant_nibble (b : Byte.byte) :
  In (hexDigit (N.shiftr (N.lor (N.land (Byte.to_N b) 63) 128) 4))
     ["8"; "9"; "a"; "b"]%char.
Proof. destruct b; vm_compute; tauto. Qed.

End Token.

Lemma allLowerHex_no_hyphen (s : string) :
  allLowerHex s = true -> countHyphens s = 0.
Proof.
  unfold allLowerHex. induction s as [| c s IH]; [reflexivity |].
  cbn [list_ascii_of_string forallb countHyphens].
  intros H. apply andb_true_iff in H as [Hc Hs].
  rewrite (lowerHex_not_hyphen c Hc). exact (IH Hs).
Qed.

Lemma createRequestId_hex (rs : RandomSource) :
  fst (createRequestId rs)
  = hexOfBytes (uuidV4Bytes (fst (randomBytes 16 rs))).
Proof.
  unfold createRequestId, randomUUID.
  destruct (randomBytes 16 rs) as [bs rs']. cbn [fst].
  apply removeHyphens_serializeUUID.
Qed.

(** C5: the token is the version-4 UUID of the runtime with its four
    hyphens deleted: 32 characters, each a lowercase hexadecimal digit, none
    a separator. The UUID has 36 characters, hyphens at offsets 8, 13, 18
    and 23 only, the version digit 4 and a variant digit among 8, 9, a, b. *)
Theorem createRequestId_format (rs : RandomSource) :
  String.length (fst (createRequestId rs)) = 32 /\
  allLowerHex (fst (createRequestId rs)) = true /\
  countHyphens (fst (createRequestId rs)) = 0 /\
  fst (createRequestId rs) = removeHyphens (fst (randomUUID rs)) /\
  String.length (fst (randomUUID rs)) = 36 /\
  countHyphens (fst (randomUUID rs)) = 4 /\
  map (fun i => String.get i (fst (randomUUID rs))) [8; 13; 18; 23]
  = [Some "-"; Some "-"; Some "-"; Some "-"]%char /\
  String.get 14 (fst (randomUUID rs)) = Some "4"%char /\
  (exists d, String.get 19 (fst (randomUUID rs)) = Some d /\
             In d ["8"; "9"; "a"; "b"]%char).
Proof.
  assert (Hlen : String.length (fst (createRequestId rs)) = 32).
  { rewrite createRequestId_hex, length_hexOfBytes.
    unfold uuidV4Bytes. rewrite length_imap. reflexivity. }
  assert (Hhex : allLowerHex (fst (createRequestId rs)) = true).
  { rewrite createRequestId_hex. apply allLowerHex_hexOfBytes. }
  assert (Hrm : fst (createRequestId rs)
                = removeHyphens (fst (randomUUID rs))).
  { unfold createRequestId. destruct (randomUUID rs). reflexivity. }
  assert (Hlen36 : String.length (fst (randomUUID rs)) = 36)
    by reflexivity.
  repeat split; try assumption.
  - apply allLowerHex_no_hyphen. exact Hhex.
  - pose proof (length_removeHyphens (fst (randomUUID rs))) as H.
    rewrite <- Hrm, Hlen, Hlen36 in H. lia.
  - change (String.get 14 (fst (randomUUID rs)))
      with (Some (hexDigit (N.shiftr
              (N.lor (N.land (Byte.to_N (pool rs (cursor rs + 6))) 15) 64)
              4))).
    rewrite version_nibble. reflexivity.
  - eexists. split; [| apply (variant_nibble (pool rs (cursor rs + 8)))].
    reflexivity.
Qed.

(** ** Pagination *)

Section PageToken.

Lemma get_Some_firstValue name params v :
  Url.get name params = Some v <-> firstValue name params v.
Proof.
  unfold firstValue. induction params as [| [k w] params IH]; simpl.
  - split; [discriminate |].
    intros (before & after & H & _). destruct before; discriminate H.
  - destruct (String.eqb_spec k name) as [-> | Hne].
    + split.
      * intros [= ->]. exists [], params. split; [reflexivity | constructor].
      * intros (before & after & H & Hall).
        destruct before as [| [k' w'] before].
        -- injection H as -> _. reflexivity.
        -- injection H as -> -> _. inversion Hall as [| ? ? Hk _].
           contradiction Hk. reflexivity.
    + rewrite IH. split.
      * intros (before & after & -> & Hall).
        exists ((k, w) :: before), after. split; [reflexivity |].
        constructor; assumption.
      * intros (before & after & H & Hall).
        destruct before as [| [k' w'] before].
        -- injection H as -> _. contradiction Hne. reflexivity.
        -- injection H as -> -> ->. inversion Hall; subst.
           exists before, after. split; [reflexivity | assumption].
Qed.

Lemma get_None_lacksParam name params :
  Url.get name params = None <-> lacksParam name params.
Proof.
  unfold lacksParam. induction params as [| [k w] params IH]; simpl.
  - split; [constructor | reflexivity].
  - destruct (String.eqb_spec k name) as [-> | Hne].
    + split; [discriminate |].
      intros H. inversion H as [| ? ? Hk _]. contradiction Hk. reflexivity.
    + rewrite IH. split.
      * intros H. constructor; assumption.
      * intros H. inversion H. assumption.
Qed.

(** The case description leaves no choice: an input has one token at most. *)
Lemma PageTokenOf_functional newURL url r1 r2 :
  PageTokenOf newURL url r1 -> PageTokenOf newURL url r2 -> r1 = r2.
Proof.
  intros H1 H2.
  destruct H1 as [| | s e He | s u Hu Hlack | s u v Hs Hu Hv];
    inversion H2 as [| | s' e' He' | s' u' Hu' Hlack' | s' u' v' Hs' Hu' Hv'];
    subst; try reflexivity; try congruence.
  - rewrite Hu in Hu'. injection Hu' as <-.
    apply get_None_lacksParam in Hlack.
    apply get_Some_firstValue in Hv'. congruence.
  - rewrite Hu in Hu'. injection Hu' as <-.
    apply get_None_lacksParam in Hlack'.
    apply get_Some_firstValue in Hv. congruence.
  - rewrite Hu in Hu'. injection Hu' as <-.
    apply get_Some_firstValue in Hv, Hv'. congruence.
Qed.

Lemma extractPageToken_meets_cases newURL url :
  exists r,
    extractPageToken newURL url = Js.Normal r /\ PageTokenOf newURL url r.
Proof.
  unfold extractPageToken.
  destruct url as [s |]; simpl.
  2: { exists None. split; [reflexivity | constructor]. }
  destruct (String.eqb_spec s "") as [-> | Hne]; simpl.
  { exists None. split; [reflexivity | constructor]. }
  destruct (newURL s) as [u | e] eqn:Hparse; simpl.
  - destruct (Url.get "page_token" (Url.searchParams u)) as [v |] eqn:Hget.
    + exists (Some v). split; [reflexivity |].
      apply (token_of_carrying newURL s u v Hne Hparse).
      apply get_Some_firstValue. exact Hget.
    + exists None. split; [reflexivity |].
      apply (token_of_lacking newURL s u Hparse).
      apply get_None_lacksParam. exact Hget.
  - exists None. split; [reflexivity |].
    apply (token_of_malformed newURL s e Hparse).
Qed.

End PageToken.

(** C2: for every input, [extractPageToken] returns, never throws, and its
    result is the value of the first [page_token] parameter when the input
    parses as a URL carrying one, and null when the input is null, empty,
    does not parse, or lacks the parameter. This holds whatever the URL
    constructor accepts. With the constructor modelled here, the three
    inputs named by the spec give [abc123], null and null. *)
Theorem extractPageToken_spec :
  (forall (newURL : string -> Js.completion Url.URL) (url : option string),
      exists r,
        extractPageToken newURL url = Js.Normal r /\
        PageTokenOf newURL url r) /\
  extractPageToken Url.parse
    (Some "https://api.example.com/v2/events?page_token=abc123")
  = Js.Normal (Some "abc123") /\
  extractPageToken Url.parse None = Js.Normal None /\
  extractPageToken Url.parse (Some "not a url") = Js.Normal None.
Proof.
  split; [exact extractPageToken_meets_cases |].
  repeat split.
Qed.

Example parse_example_url :
  Url.parse "https://api.example.com/v2/events?page_token=abc123"
  = Js.Normal {| Url.scheme := "https";
                 Url.searchParams := [("page_token", "abc123")] |}.
Proof. reflexivity. Qed.

Example parse_not_a_url :
  Url.parse "not a url" = Js.Throw "TypeError: Invalid URL".
Proof. reflexivity. Qed.

Example parse_first_of_repeated :
  extractPageToken Url.parse
    (Some "https://api.stripe.com/v2/core/events?limit=10&page_token=a%2Fb&page_token=c")
  = Js.Normal (Some "a/b").
Proof. reflexivity. Qed.

(** ** Retry *)

Section Retry.

Import Dispatcher.

Variable p : RetryPolicy.
Variable t : Transport.

(** With no retry allowed, a failing first call ends the invocation. *)
Lemma dispatch_no_retry_fails :
  (rp_maxRetries p <= 0)%Z ->
  isFailure p (t 0) = true ->
  dispatch p t = {| phase := FAILED (t 0); retries := 0; calls := 1 |}.
Proof.
  intros Hmax Hfail. unfold dispatch, fuelFor.
  replace (Z.to_nat (rp_maxRetries p)) with 0 by lia.
  cbn [Nat.add Nat.mul run]. unfold step at 1. cbn [initial phase calls retries].
  unfold step at 1. cbn [phase calls retries]. rewrite Hfail.
  replace (Z.of_nat 0 <? rp_maxRetries p)%Z with false
    by (symmetry; apply Z.ltb_ge; simpl; lia).
  reflexivity.
Qed.

(** With no retry allowed, a delivered first call ends it as well: there is
    one transport call in every case. *)
Lemma dispatch_no_retry_one_call :
  (rp_maxRetries p <= 0)%Z ->
  calls (dispatch p t) = 1 /\ isTerminal (dispatch p t) = true.
Proof.
  intros Hmax.
  assert (Hno : (Z.of_nat 0 <? rp_maxRetries p)%Z = false)
    by (apply Z.ltb_ge; simpl; lia).
  unfold dispatch, fuelFor.
  replace (Z.to_nat (rp_maxRetries p)) with 0 by lia.
  cbn [Nat.add Nat.mul run]. unfold step.
  cbn [initial phase calls retries]. rewrite Hno. cbn [andb].
  destruct (t 0) as [status body | |]; cbn [isFailure];
    [destruct (rp_delivered p status) |..]; split; reflexivity.
Qed.

End Retry.

(** The spec's example for two retries: two retryable failures, then a
    success, make three transport calls. *)
Example dispatch_two_retries_then_success :
  let flaky n :=
    if (n <? 2)%nat then Dispatcher.Responded 503 (Payload "unavailable")
    else Dispatcher.Responded 200 (Payload "ok") in
  let policy :=
    Dispatcher.policyOf
      (sdkConfig
         {| cfg_apiKey := "sk_test_123"; cfg_endpoint := None;
            cfg_timeout := None; cfg_maxRetries := Some 2%Z;
            cfg_apiVersion := None; cfg_cacheProvider := None;
            cfg_customResponseTransformer := None |})
      (fun status => (500 <=? status)%Z) in
  Dispatcher.dispatch policy flaky
  = {| Dispatcher.phase := Dispatcher.SUCCEEDED (Payload "ok");
       Dispatcher.retries := 2; Dispatcher.calls := 3 |}.
Proof. reflexivity. Qed.

(** C8: an SDK built with [maxRetries] left out or set to 0 does not retry:
    when the first transport call fails, whether by a timeout, a lost
    connection or a response the status predicate rejects, the invocation
    has made that one call and ends in the failed state carrying it. *)
Theorem no_retries_single_attempt
    (c : StripeSDKConfig) (retryable : Z -> bool)
    (t : Dispatcher.Transport) :
  cfg_maxRetries c = None \/ cfg_maxRetries c = Some 0%Z ->
  Dispatcher.isFailure
    (Dispatcher.policyOf (sdk_config (stripeSdk c)) retryable) (t 0) = true ->
  Dispatcher.dispatch
    (Dispatcher.policyOf (sdk_config (stripeSdk c)) retryable) t
  = {| Dispatcher.phase := Dispatcher.FAILED (t 0);
       Dispatcher.retries := 0;
       Dispatcher.calls := 1 |}.
Proof.
  intros Hmax Hfail. apply dispatch_no_retry_fails; [| exact Hfail].
  rewrite stripeSdk_config. cbn [Dispatcher.policyOf Dispatcher.rp_maxRetries].
  cbn [sdkConfig maxRetries]. destruct Hmax as [-> | ->]; simpl; lia.
Qed.

Lemma no_retries_single_attempt_witness :
  Dispatcher.dispatch
    (Dispatcher.policyOf (sdk_config (stripeSdk exampleConfig))
       (fun _ => true))
    (fun _ => Dispatcher.Responded 503 (Payload "unavailable"))
  = {| Dispatcher.phase :=
         Dispatcher.FAILED (Dispatcher.Responded 503 (Payload "unavailable"));
       Dispatcher.retries := 0;
       Dispatcher.calls := 1 |}.
Proof.
  exact (no_retries_single_attempt exampleConfig (fun _ => true)
           (fun _ => Dispatcher.Responded 503 (Payload "unavailable"))
           (or_introl eq_refl) eq_refl).
Defined.

(** * Further properties of the code *)

(** ** Construction *)



(** X2: Whatever the caller passes, the built configuration has a base URL
    that is not empty and equals the endpoint of the context, a version
    that is not empty, and a timeout that is not 0; the key and the cache
    provider are handed on as they are. *)
Theorem stripeSdk_config_invariant (c : StripeSDKConfig) :
  baseUrl (sdk_config (stripeSdk c))
    = endpoint (config (sdk_config (stripeSdk c))) /\
  baseUrl (sdk_config (stripeSdk c)) <> "" /\
  apiVersion (config (sdk_config (stripeSdk c))) <> "" /\
  timeout (config (sdk_config (stripeSdk c))) <> 0%Z /\
  apiKey (config (sdk_config (stripeSdk c))) = cfg_apiKey c /\
  cacheProvider (sdk_config (stripeSdk c)) = cfg_cacheProvider c.
Proof.
  rewrite stripeSdk_config. simpl. repeat split.
  - destruct (cfg_endpoint c) as [e |]; simpl; [| discriminate].
    destruct (String.eqb_spec e ""); simpl; [discriminate | assumption].
  - destruct (cfg_apiVersion c) as [v |]; simpl; [| discriminate].
    destruct (String.eqb_spec v ""); simpl; [discriminate | assumption].
  - destruct (cfg_timeout c) as [n |]; simpl; [| discriminate].
    destruct (Z.eqb_spec n 0); simpl; [discriminate | assumption].
Qed.

(** ** The interceptor *)

(** X3: Options without a path, which is what the default [{}] is, make the
    installed chain throw: no options come back. *)
Theorem requestPhase_throws_without_path
    (c : StripeSDKConfig) (options : RequestOptions) (rs : RandomSource) :
  path options = None ->
  exists e, fst (requestPhase (stripeSdk c) options rs) = Js.Throw e.
Proof.
  intros Hp. rewrite requestPhase_stripeSdk.
  apply reqInterceptor_throws. exact Hp.
Qed.

Lemma requestPhase_throws_without_path_witness :
  exists e,
    fst (requestPhase (stripeSdk exampleConfig) noOptions
           (constantSource Byte.x00)) = Js.Throw e.
Proof.
  exact (requestPhase_throws_without_path exampleConfig noOptions
           (constantSource Byte.x00) eq_refl).
Defined.

(** X4: The interceptor writes three header names and no other: the names of
    the outgoing headers are the caller's and those three, and a header the
    caller sent under [Content-Type] goes out as it came, whatever content
    type the interceptor chose. *)
Theorem reqInterceptor_writes_three_headers
    (c : StripeSDKConfig) (options : RequestOptions) (rs : RandomSource)
    (p : string) :
  path options = Some p ->
  exists options' h,
    fst (requestPhase (stripeSdk c) options rs) = Js.Normal options' /\
    headers options' = Some h /\
    dom h = dom (spread (headers options))
            ∪ {[ "Authorization"; "Stripe-Version"; "Idempotency-Key" ]} /\
    h !! "Content-Type" = spread (headers options) !! "Content-Type".
Proof.
  intros Hp. rewrite requestPhase_stripeSdk.
  rewrite (reqInterceptor_returns _ _ _ p Hp). cbn [fst].
  do 2 eexists. split; [reflexivity |]. split; [reflexivity |]. split.
  - unfold outgoingHeaders. rewrite !dom_insert_L.
    apply set_eq. intros name. set_unfold. tauto.
  - apply outgoingHeaders_other; discriminate.
Qed.

Lemma reqInterceptor_writes_three_headers_witness :
  exists options' h,
    fst (requestPhase (stripeSdk exampleConfig)
           (exampleOptions "/v2/core/events"
              (Some {[ "Content-Type" := "text/plain" ]}))
           (constantSource Byte.x00)) = Js.Normal options' /\
    headers options' = Some h /\
    h !! "Content-Type" = Some "text/plain".
Proof.
  destruct (reqInterceptor_writes_three_headers exampleConfig
              (exampleOptions "/v2/core/events"
                 (Some {[ "Content-Type" := "text/plain" ]}))
              (constantSource Byte.x00) "/v2/core/events" eq_refl)
    as (options' & h & Hrun & Hh & _ & Hct).
  exists options', h.
  exact (conj Hrun (conj Hh Hct)).
Defined.

Lemma outgoingHeaders_again cfg h (t1 t2 : string) :
  outgoingHeaders cfg (Some (outgoingHeaders cfg h t1)) t2
  = <["Idempotency-Key" := t2]> (outgoingHeaders cfg h t1).
Proof.
  apply map_eq. intros name.
  destruct (decide (name = "Idempotency-Key")) as [-> | Hi].
  { rewrite outgoingHeaders_idempotency, lookup_insert_eq. reflexivity. }
  rewrite (lookup_insert_ne _ "Idempotency-Key" name) by congruence.
  destruct (decide (name = "Stripe-Version")) as [-> | Hv].
  { rewrite !outgoingHeaders_version. reflexivity. }
  destruct (decide (name = "Authorization")) as [-> | Ha].
  { rewrite !outgoingHeaders_authorization. reflexivity. }
  rewrite outgoingHeaders_other by assumption. reflexivity.
Qed.

(** X5: Running the interceptor on its own result, as happens when the chain
    is run again for the same options, changes one thing only: the
    [Idempotency-Key] header takes the next token. *)
Theorem reqInterceptor_run_again
    (c : StripeSDKConfig) (options : RequestOptions) (rs : RandomSource)
    (p : string) :
  path options = Some p ->
  exists o1 o2 h1,
    requestPhase (stripeSdk c) options rs
      = (Js.Normal o1, snd (createRequestId rs)) /\
    fst (requestPhase (stripeSdk c) o1 (snd (createRequestId rs)))
      = Js.Normal o2 /\
    headers o1 = Some h1 /\
    headers o2
      = Some (<["Idempotency-Key" :=
                  fst (createRequestId (snd (createRequestId rs)))]> h1) /\
    path o2 = path o1 /\
    contentType o2 = contentType o1 /\
    otherFields o2 = otherFields o1.
Proof.
  intros Hp. rewrite !requestPhase_stripeSdk.
  rewrite (reqInterceptor_returns _ _ _ p Hp).
  do 3 eexists. split; [reflexivity |].
  rewrite requestPhase_stripeSdk.
  erewrite reqInterceptor_returns by reflexivity. cbn [fst headers].
  split; [reflexivity |]. split; [reflexivity |].
  rewrite outgoingHeaders_again. repeat split.
Qed.

Lemma reqInterceptor_run_again_witness :
  exists o1 o2 h1,
    requestPhase (stripeSdk exampleConfig)
      (exampleOptions "/v1/refunds" None) (constantSource Byte.x00)
      = (Js.Normal o1, snd (createRequestId (constantSource Byte.x00))) /\
    fst (requestPhase (stripeSdk exampleConfig) o1
           (snd (createRequestId (constantSource Byte.x00))))
      = Js.Normal o2 /\
    headers o1 = Some h1 /\
    contentType o2 = contentType o1.
Proof.
  destruct (reqInterceptor_run_again exampleConfig
              (exampleOptions "/v1/refunds" None)
              (constantSource Byte.x00) "/v1/refunds" eq_refl)
    as (o1 & o2 & h1 & H1 & H2 & Hh & _ & _ & Hct & _).
  exists o1, o2, h1.
  exact (conj H1 (conj H2 (conj Hh Hct))).
Defined.

(** ** The token *)

(** X6: In every token the character at offset 12 is the version digit 4 and
    the one at offset 16 is a variant digit, so 122 of its 128 bits come
    from the random source. *)
Theorem createRequestId_fixed_digits (rs : RandomSource) :
  String.get 12 (fst (createRequestId rs)) = Some "4"%char /\
  exists d, String.get 16 (fst (createRequestId rs)) = Some d /\
            In d ["8"; "9"; "a"; "b"]%char.
Proof.
  rewrite createRequestId_hex. split.
  - change (String.get 12 _)
      with (Some (hexDigit (N.shiftr
              (N.lor (N.land (Byte.to_N (pool rs (cursor rs + 6))) 15) 64)
              4))).
    rewrite version_nibble. reflexivity.
  - eexists. split; [| apply (variant_nibble (pool rs (cursor rs + 8)))].
    reflexivity.
Qed.

Lemma hexOfBytes_inj_digits (xs ys : list N) :
  hexOfBytes xs = hexOfBytes ys -> map byteToHex xs = map byteToHex ys.
Proof.
  revert ys. induction xs as [| x xs IH]; intros [| y ys] H.
  - reflexivity.
  - rewrite hexOfBytes_cons in H. unfold byteToHex in H.
    rewrite !append_cons in H. discriminate H.
  - rewrite hexOfBytes_cons in H. unfold byteToHex in H.
    rewrite !append_cons in H. discriminate H.
  - rewrite !hexOfBytes_cons in H. unfold byteToHex in H.
    rewrite !append_cons in H.
    change ("" ++ hexOfBytes xs) with (hexOfBytes xs) in H.
    change ("" ++ hexOfBytes ys) with (hexOfBytes ys) in H.
    injection H as Hhi Hlo Hrest.
    cbn [map]. f_equal; [| exact (IH ys Hrest)].
    unfold byteToHex. rewrite Hhi, Hlo. reflexivity.
Qed.

Lemma hexOfBytes_of_digits (xs : list N) :
  hexOfBytes xs = fold_right String.append "" (map byteToHex xs).
Proof.
  induction xs as [| x xs IH]; [reflexivity |].
  rewrite hexOfBytes_cons, IH. reflexivity.
Qed.

Lemma serializeUUID_of_digits (xs ys : list N) :
  map byteToHex xs = map byteToHex ys ->
  serializeUUID xs = serializeUUID ys.
Proof.
  intros H. unfold serializeUUID.
  rewrite !hexOfBytes_of_digits.
  rewrite <- !firstn_map, <- !skipn_map, H. reflexivity.
Qed.

(** X7: Deleting the hyphens loses nothing: two UUIDs that give the same token
    are the same UUID, so tokens collide only where the UUIDs do. *)
Theorem createRequestId_injective (rs1 rs2 : RandomSource) :
  fst (createRequestId rs1) = fst (createRequestId rs2) ->
  fst (randomUUID rs1) = fst (randomUUID rs2).
Proof.
  rewrite !createRequestId_hex. intros H.
  apply hexOfBytes_inj_digits in H.
  unfold randomUUID.
  destruct (randomBytes 16 rs1) as [bs1 rs1'].
  destruct (randomBytes 16 rs2) as [bs2 rs2']. cbn [fst] in *.
  apply serializeUUID_of_digits. exact H.
Qed.

Lemma createRequestId_injective_witness :
  fst (randomUUID (constantSource Byte.x00))
  = fst (randomUUID {| pool := fun _ => Byte.x00; cursor := 16 |}).
Proof.
  exact (createRequestId_injective (constantSource Byte.x00)
           {| pool := fun _ => Byte.x00; cursor := 16 |} eq_refl).
Defined.

(** ** The route tables *)

Section Routes.

Lemma registerAll_app (xs ys : list (string * string * Verb)) sdk :
  registerAll (xs ++ ys) sdk = registerAll ys (registerAll xs sdk).
Proof. unfold registerAll. apply fold_left_app. Qed.

Lemma registerAll_cons (route : string * string * Verb) routes sdk :
  registerAll (route :: routes) sdk
  = registerAll routes
      (r (routeName route) (routeTemplate route) (routeVerb route) sdk).
Proof. destruct route as [[name tpl] verb]. reflexivity. Qed.

(** Registering routes leaves every other name as it was. *)
Lemma registerAll_lookup_other routes sdk (name : string) :
  ~ In name (map routeName routes) ->
  sdk_endpoints (registerAll routes sdk) !! name = sdk_endpoints sdk !! name.
Proof.
  revert sdk. induction routes as [| route routes IH]; intros sdk Hnot.
  - reflexivity.
  - rewrite registerAll_cons, IH.
    + cbn [r sdk_endpoints]. apply lookup_insert_ne.
      intros Heq. apply Hnot. left. exact Heq.
    + intros Hin. apply Hnot. right. exact Hin.
Qed.

(** With no name given twice, every route is found under its name. *)
Lemma registerAll_lookup routes sdk (route : string * string * Verb) :
  List.NoDup (map routeName routes) ->
  In route routes ->
  sdk_endpoints (registerAll routes sdk) !! routeName route
  = Some (routeTemplate route, routeVerb route).
Proof.
  revert sdk. induction routes as [| head routes IH]; intros sdk Hnd Hin.
  - destruct Hin.
  - cbn [map] in Hnd. apply List.NoDup_cons_iff in Hnd as [Hhead Hnd].
    rewrite registerAll_cons. destruct Hin as [-> | Hin].
    + rewrite registerAll_lookup_other by exact Hhead.
      cbn [r sdk_endpoints]. apply lookup_insert_eq.
    + apply IH; assumption.
Qed.

Lemma allRoutes_names_distinct : List.NoDup (map routeName allRoutes).
Proof.
  apply NoDup_ListNoDup, (bool_decide_unpack _). vm_compute. exact I.
Qed.

Lemma stripeSdk_endpoints c :
  sdk_endpoints (stripeSdk c)
  = sdk_endpoints
      (registerAll allRoutes
         (rx "reqInterceptor" reqInterceptor (sdkBuilder (sdkConfig c)))).
Proof.
  unfold stripeSdk, registerV2Endpoints, registerV1Endpoints, allRoutes.
  rewrite registerAll_app. reflexivity.
Qed.

End Routes.

(** X8: The registry of a fresh facade holds the routes of the two tables and
    nothing else: a name is bound to a template and a verb exactly when the
    tables list that triple. No registration replaces another, since no
    name occurs twice. *)
Theorem stripeSdk_registry (c : StripeSDKConfig)
    (name tpl : string) (verb : Verb) :
  sdk_endpoints (stripeSdk c) !! name = Some (tpl, verb)
  <-> In (name, tpl, verb) allRoutes.
Proof.
  rewrite stripeSdk_endpoints. split.
  - intros Hlook.
    destruct (in_dec string_dec name (map routeName allRoutes)) as [Hin | Hnot].
    + apply in_map_iff in Hin as (route & Hname & Hin).
      pose proof (registerAll_lookup allRoutes
                    (rx "reqInterceptor" reqInterceptor
                        (sdkBuilder (sdkConfig c)))
                    route allRoutes_names_distinct Hin) as Hfound.
      rewrite Hname, Hlook in Hfound. injection Hfound as -> ->.
      destruct route as [[n t] v]. cbn in Hname. subst n. exact Hin.
    + rewrite registerAll_lookup_other in Hlook by exact Hnot.
      cbn in Hlook. rewrite lookup_empty in Hlook. discriminate Hlook.
  - intros Hin.
    apply (registerAll_lookup allRoutes _ (name, tpl, verb)
             allRoutes_names_distinct Hin).
Qed.

Lemma route_families_check :
  forallb
    (fun route =>
       (String.prefix "v2" (routeName route) &&
        String.eqb (substring 0 4 (routeTemplate route)) "/v2/")
       || (negb (String.prefix "v2" (routeName route)) &&
           String.eqb (substring 0 4 (routeTemplate route)) "/v1/"))
    allRoutes = true.
Proof. vm_compute. reflexivity. Qed.

(** X9: Names and paths agree on the family: for every registered route, and
    every path that starts with the four characters the route's template
    starts with, as each path made from the template does, the interceptor
    chooses JSON exactly when the route is named [v2...]. *)
Theorem route_family_content_type
    (c : StripeSDKConfig) (route : string * string * Verb)
    (options : RequestOptions) (rs : RandomSource) (rest : string) :
  In route allRoutes ->
  path options = Some (substring 0 4 (routeTemplate route) ++ rest) ->
  exists options',
    fst (requestPhase (stripeSdk c) options rs) = Js.Normal options' /\
    contentType options'
    = Some (if String.prefix "v2" (routeName route)
            then "application/json"
            else "application/x-www-form-urlencoded").
Proof.
  intros Hin Hp. rewrite requestPhase_stripeSdk.
  rewrite (reqInterceptor_returns _ _ _ _ Hp). cbn [fst].
  eexists. split; [reflexivity |]. cbn [contentType]. f_equal.
  pose proof route_families_check as Hall.
  rewrite forallb_forall in Hall. specialize (Hall route Hin).
  apply orb_true_iff in Hall as [H | H];
    apply andb_true_iff in H as [Hname Htpl];
    apply String.eqb_eq in Htpl; rewrite Htpl.
  - rewrite Hname. unfold isV2Endpoint.
    replace (String.prefix "/v2/" ("/v2/" ++ rest)) with true; [reflexivity |].
    symmetry. apply prefix_iff_append. exists rest. reflexivity.
  - apply negb_true_iff in Hname. rewrite Hname. reflexivity.
Qed.

Lemma route_family_content_type_witness :
  exists options',
    fst (requestPhase (stripeSdk exampleConfig)
           (exampleOptions "/v2/core/events/evt_1" None)
           (constantSource Byte.x00)) = Js.Normal options' /\
    contentType options' = Some "application/json".
Proof.
  refine (route_family_content_type exampleConfig
            ("v2GetEvent", "/v2/core/events/{event_id}", GET)
            (exampleOptions "/v2/core/events/evt_1" None)
            (constantSource Byte.x00) "core/events/evt_1" _ eq_refl).
  unfold allRoutes. apply in_or_app. right.
  do 16 right. left. reflexivity.
Defined.

Lemma legacy_routes_kept_aux (route : string * string * Verb) :
  In route (legacyV1Routes ++ legacyV2Routes) -> In route allRoutes.
Proof.
  intros Hin. unfold allRoutes.
  apply in_app_or in Hin as [H1 | H2]; apply in_or_app.
  - left.
    change v1Routes with (legacyV1Routes ++ skipn 51 v1Routes)%list.
    apply in_or_app. left. exact H1.
  - right. exact H2.
Qed.

(** X10: The current revision only adds routes: each route the earlier revision
    registers is still bound, under the same name, to the same template and
    verb. *)
Theorem legacy_routes_kept
    (c : StripeSDKConfig) (route : string * string * Verb) :
  In route (legacyV1Routes ++ legacyV2Routes) ->
  sdk_endpoints (stripeSdk c) !! routeName route
  = Some (routeTemplate route, routeVerb route).
Proof.
  intros Hin. rewrite stripeSdk_endpoints.
  apply registerAll_lookup;
    [exact allRoutes_names_distinct | exact (legacy_routes_kept_aux _ Hin)].
Qed.

Lemma legacy_routes_kept_witness :
  sdk_endpoints (stripeSdk exampleConfig) !! "getBalance"
  = Some ("/v1/balance", GET).
Proof.
  exact (legacy_routes_kept exampleConfig ("getBalance", "/v1/balance", GET)
           (or_introl eq_refl)).
Defined.

(** ** Page tokens through a URL *)

Section RoundTrip.

Lemma dropWhile_none (p : ascii -> bool) (cs : list ascii) :
  Forall (fun c => p c = false) cs -> Url.dropWhile p cs = cs.
Proof.
  intros H. destruct H as [| c cs Hc _]; [reflexivity |].
  simpl. rewrite Hc. reflexivity.
Qed.

Lemma takeWhile_all (p : ascii -> bool) (cs : list ascii) :
  Forall (fun c => p c = true) cs -> Url.takeWhile p cs = cs.
Proof.
  induction 1 as [| c cs Hc _ IH]; [reflexivity |].
  simpl. rewrite Hc, IH. reflexivity.
Qed.

Lemma filter_all (p : ascii -> bool) (cs : list ascii) :
  Forall (fun c => p c = true) cs -> filter p cs = cs.
Proof.
  induction 1 as [| c cs Hc _ IH]; [reflexivity |].
  rewrite filter_cons_True by (rewrite Hc; exact I).
  rewrite IH. reflexivity.
Qed.

Lemma trim_none (cs : list ascii) :
  Forall (fun c => Url.isC0OrSpace c = false) cs -> Url.trim cs = cs.
Proof.
  intros H. unfold Url.trim.
  rewrite (dropWhile_none _ cs H).
  rewrite dropWhile_none by (apply Forall_rev; exact H).
  apply rev_involutive.
Qed.

Lemma splitOn_none (sep : ascii) (cs : list ascii) :
  Forall (fun c => Ascii.eqb c sep = false) cs -> Url.splitOn sep cs = [cs].
Proof.
  induction 1 as [| c cs Hc _ IH]; [reflexivity |].
  simpl. rewrite Hc, IH. reflexivity.
Qed.

Lemma percentDecode_none (cs : list ascii) :
  Forall (fun c => Ascii.eqb c "%" = false) cs -> Url.percentDecode cs = cs.
Proof.
  induction 1 as [| c cs Hc _ IH]; [reflexivity |].
  simpl. rewrite Hc. fold Url.percentDecode. rewrite IH. reflexivity.
Qed.

Lemma plusToSpace_none (cs : list ascii) :
  Forall (fun c => Ascii.eqb c "+" = false) cs -> map Url.plusToSpace cs = cs.
Proof.
  induction 1 as [| c cs Hc _ IH]; [reflexivity |].
  simpl. unfold Url.plusToSpace at 1. rewrite Hc, IH. reflexivity.
Qed.

Lemma list_ascii_of_string_app (a b : string) :
  list_ascii_of_string (a ++ b)
  = (list_ascii_of_string a ++ list_ascii_of_string b)%list.
Proof.
  induction a as [| c a IH]; [reflexivity |].
  rewrite append_cons. simpl. rewrite IH. reflexivity.
Qed.

(** What a token character is not. *)
Lemma isTokenChar_plain (c : ascii) :
  isTokenChar c = true ->
  Url.isC0OrSpace c = false /\ Url.isTabOrNewline c = false /\
  Ascii.eqb c "#" = false /\ Ascii.eqb c "?" = false /\
  Ascii.eqb c "&" = false /\ Ascii.eqb c "=" = false /\
  Ascii.eqb c "%" = false /\ Ascii.eqb c "+" = false.
Proof.
  destruct c as [[] [] [] [] [] [] [] []]; vm_compute; intros H;
    try discriminate H; repeat split.
Qed.

End RoundTrip.
Lemma token_chars (tok : string) :
  isToken tok = true ->
  Forall (fun c => isTokenChar c = true) (list_ascii_of_string tok).
Proof.
  unfold isToken. intros H. apply List.Forall_forall. intros c Hc.
  rewrite forallb_forall in H. apply H. exact Hc.
Qed.

Lemma takeWhile_app_all (p : ascii -> bool) (pre rest : list ascii) :
  Forall (fun c => p c = true) pre ->
  Url.takeWhile p (pre ++ rest) = (pre ++ Url.takeWhile p rest)%list.
Proof.
  induction 1 as [| c cs Hc _ IH]; [reflexivity |].
  simpl. rewrite Hc, IH. reflexivity.
Qed.

Lemma takeWhile_app_stop (p : ascii -> bool) (pre rest : list ascii) c :
  Forall (fun c => p c = true) pre -> p c = false ->
  Url.takeWhile p (pre ++ c :: rest) = pre.
Proof.
  intros Hpre Hc. rewrite takeWhile_app_all by exact Hpre.
  simpl. rewrite Hc. apply app_nil_r.
Qed.

Lemma dropWhile_app_stop (p : ascii -> bool) (pre rest : list ascii) c :
  Forall (fun c => p c = true) pre -> p c = false ->
  Url.dropWhile p (pre ++ c :: rest) = c :: rest.
Proof.
  intros Hpre Hc. induction Hpre as [| d ds Hd _ IH].
  - simpl. rewrite Hc. reflexivity.
  - simpl. rewrite Hd. exact IH.
Qed.

Ltac closed_forall := vm_compute; repeat constructor.

Lemma parse_page_url (tok : string) :
  isToken tok = true ->
  Url.parse ("https://api.stripe.com/v2/core/events?page_token=" ++ tok)
  = Js.Normal {| Url.scheme := "https";
                 Url.searchParams := [("page_token", tok)] |}.
Proof.
  intros Htok. apply token_chars in Htok.
  assert (Hplain : Forall (fun c => 
            Url.isC0OrSpace c = false /\ Url.isTabOrNewline c = false /\
            Ascii.eqb c "#" = false /\ Ascii.eqb c "?" = false /\
            Ascii.eqb c "&" = false /\ Ascii.eqb c "=" = false /\
            Ascii.eqb c "%" = false /\ Ascii.eqb c "+" = false)
            (list_ascii_of_string tok)).
  { eapply List.Forall_impl; [| exact Htok]. intros c. apply isTokenChar_plain. }
  unfold Url.parse. rewrite list_ascii_of_string_app.
  set (T := list_ascii_of_string tok) in *.
  rewrite trim_none.
  2: { apply List.Forall_app. split.
       - closed_forall.
       - eapply List.Forall_impl; [| exact Hplain]. intros c H. apply H. }
  rewrite filter_all.
  2: { apply List.Forall_app. split.
       - closed_forall.
       - eapply List.Forall_impl; [| exact Hplain]. intros c H.
         apply negb_true_iff. apply H. }
  set (after := list_ascii_of_string "//api.stripe.com/v2/core/events").
  set (name := list_ascii_of_string "page_token").
  set (query := (name ++ "="%char :: T)%list).
  set (A := (after ++ "?"%char :: query)%list).
  change (list_ascii_of_string
            "https://api.stripe.com/v2/core/events?page_token=" ++ T)%list
    with ("h"%char :: (list_ascii_of_string "ttps" ++ ":"%char :: A))%list.
  cbv beta iota zeta.
  change (Url.isAlpha "h") with true. cbv iota.
  change ("h"%char :: list_ascii_of_string "ttps" ++ ":"%char :: A)%list
    with (list_ascii_of_string "https" ++ ":"%char :: A)%list.
  rewrite dropWhile_app_stop, takeWhile_app_stop
    by (reflexivity || closed_forall).
  cbv iota beta. change (":" =? ":")%char with true. cbv iota.
  assert (HnoHash : Forall (fun c => negb (c =? "#")%char = true) A).
  { unfold A, query. repeat (apply List.Forall_app; split
                             || apply List.Forall_cons);
      try closed_forall; try reflexivity.
    eapply List.Forall_impl; [| exact Hplain]. intros c H.
    apply negb_true_iff. apply H. }
  rewrite (takeWhile_all _ A HnoHash).
  unfold A at 1 2.
  rewrite dropWhile_app_stop, takeWhile_app_stop
    by (reflexivity || closed_forall).
  cbn [tail].
  change (length (Url.hostOf after) =? 0)%nat with false.
  rewrite andb_false_r.
  f_equal. f_equal.
  unfold Url.parseUrlencoded. rewrite splitOn_none.
  2: { unfold query. apply List.Forall_app. split; [closed_forall |].
       apply List.Forall_cons; [reflexivity |].
       eapply List.Forall_impl; [| exact Hplain]. intros c H. apply H. }
  rewrite filter_cons_True by exact I. rewrite filter_nil. cbn [map].
  unfold Url.parsePair, query.
  rewrite dropWhile_app_stop, takeWhile_app_stop
    by (reflexivity || closed_forall).
  cbn [tl]. f_equal. f_equal.
  unfold Url.decodeComponent.
  rewrite plusToSpace_none, percentDecode_none.
  - apply string_of_list_ascii_of_string.
  - eapply List.Forall_impl; [| exact Hplain]. intros c H. apply H.
  - eapply List.Forall_impl; [| exact Hplain]. intros c H. apply H.
Qed.

(** X13: A page token made of letters, digits, [_] and [-], appended as the
    [page_token] parameter of the events URL, is read back unchanged; the
    empty token comes back as the empty string, not as null. *)
Theorem extractPageToken_round_trip (tok : string) :
  isToken tok = true ->
  extractPageToken Url.parse
    (Some ("https://api.stripe.com/v2/core/events?page_token=" ++ tok))
  = Js.Normal (Some tok).
Proof.
  intros Htok. unfold extractPageToken.
  change (Js.truthy_string
            (Some ("https://api.stripe.com/v2/core/events?page_token=" ++ tok)))
    with true.
  change (default "" (Some ?x)) with x. cbv beta iota delta [negb].
  rewrite (parse_page_url tok Htok). reflexivity.
Qed.

Lemma extractPageToken_round_trip_witness :
  extractPageToken Url.parse
    (Some ("https://api.stripe.com/v2/core/events?page_token=" ++ "next_token"))
  = Js.Normal (Some "next_token").
Proof.
  exact (extractPageToken_round_trip "next_token" eq_refl).
Defined.

(** ** The demonstration server *)

Section ServerProperties.

Import Server.

Context {Json Form : Type}.
Variable JSONparse : string -> Js.completion Json.
Variable querystringParse : string -> Form.
Variable sdkCall : Handler -> SdkOutcome.
Variable successParams : string -> string.

(** Two strings that both start a third: one starts the other. *)
Lemma prefix_of_common (a b u : string) :
  String.prefix a u = true -> String.prefix b u = true ->
  String.prefix a b = true \/ String.prefix b a = true.
Proof.
  revert b u. induction a as [| c a IH]; intros b u Ha Hb.
  - left. destruct b; reflexivity.
  - destruct b as [| d b]; [right; reflexivity |].
    destruct u as [| e u]; [discriminate Ha |].
    cbn in Ha, Hb |- *.
    destruct (ascii_dec c e) as [-> |]; [| discriminate Ha].
    destruct (ascii_dec d e) as [-> |]; [| discriminate Hb].
    destruct (ascii_dec e e) as [_ | Hne]; [| contradiction Hne; reflexivity].
    exact (IH b u Ha Hb).
Qed.

Lemma routes_disjoint_check :
  forallb
    (fun k1 =>
       forallb
         (fun k2 =>
            String.eqb k1 k2
            || negb (String.eqb (fst (splitKey k1)) (fst (splitKey k2)))
            || (negb (String.prefix (snd (splitKey k1)) (snd (splitKey k2)))
                && negb (String.prefix (snd (splitKey k2)) (snd (splitKey k1)))))
         (map fst routes))
    (map fst routes) = true.
Proof. vm_compute. reflexivity. Qed.

Lemma matches_spec req key :
  matches req key = true ->
  method req = fst (splitKey key) /\
  exists u, url req = Some u /\ String.prefix (snd (splitKey key)) u = true.
Proof.
  unfold matches. destruct (splitKey key) as [m p]. cbn [fst snd].
  intros H. apply andb_true_iff in H as [Hm Hu].
  apply String.eqb_eq in Hm. split; [exact Hm |].
  destruct (url req) as [u |]; [| discriminate Hu].
  exists u. split; [reflexivity | exact Hu].
Qed.

(** At most one key of the table fits a request. *)
Lemma matching_key_unique req k1 k2 :
  In k1 (map fst routes) -> In k2 (map fst routes) ->
  matches req k1 = true -> matches req k2 = true -> k1 = k2.
Proof.
  intros Hin1 Hin2 Hm1 Hm2.
  pose proof routes_disjoint_check as Hall.
  rewrite forallb_forall in Hall. specialize (Hall k1 Hin1).
  rewrite forallb_forall in Hall. specialize (Hall k2 Hin2).
  apply matches_spec in Hm1 as (Hmeth1 & u1 & Hu1 & Hp1).
  apply matches_spec in Hm2 as (Hmeth2 & u2 & Hu2 & Hp2).
  rewrite Hu1 in Hu2. injection Hu2 as <-.
  apply orb_true_iff in Hall as [Hall | Hpre].
  - apply orb_true_iff in Hall as [Heq | Hmeth].
    + apply String.eqb_eq. exact Heq.
    + apply negb_true_iff, String.eqb_neq in Hmeth. congruence.
  - apply andb_true_iff in Hpre as [H12 H21].
    apply negb_true_iff in H12, H21.
    destruct (prefix_of_common _ _ _ Hp1 Hp2); congruence.
Qed.

Lemma findRoute_Some req table h :
  findRoute req table = Some h ->
  exists key, In (key, h) table /\ matches req key = true.
Proof.
  induction table as [| [key h'] table IH]; [discriminate |].
  cbn [findRoute]. destruct (matches req key) eqn:Hm.
  - intros [= ->]. exists key. split; [left; reflexivity | exact Hm].
  - intros H. destruct (IH H) as (key' & Hin & Hm').
    exists key'. split; [right; exact Hin | exact Hm'].
Qed.

Lemma findRoute_None req table :
  findRoute req table = None ->
  forall key h, In (key, h) table -> matches req key = false.
Proof.
  induction table as [| [key h'] table IH]; [intros _ ? ? [] |].
  cbn [findRoute]. destruct (matches req key) eqn:Hm; [discriminate |].
  intros H key' h [[= <- <-] | Hin]; [exact Hm | exact (IH H key' h Hin)].
Qed.

Lemma routes_keys_distinct key h1 h2 :
  In (key, h1) routes -> In (key, h2) routes -> h1 = h2.
Proof.
  intros H1 H2. unfold routes in *. cbn [In] in *.
  repeat match goal with
         | H : _ \/ _ |- _ => destruct H as [H | H]
         | H : False |- _ => destruct H
         end; congruence.
Qed.

Lemma route_method key h :
  In (key, h) routes ->
  fst (splitKey key) = "GET" \/ (fst (splitKey key) = "POST" /\ h = Webhook).
Proof.
  intros H. unfold routes in H. cbn [In] in H.
  repeat match goal with
         | H : _ \/ _ |- _ => destruct H as [H | H]
         | H : False |- _ => destruct H
         end; injection H as <- <-;
    first [left; reflexivity | right; split; reflexivity].
Qed.

Lemma route_status req :
  statusCode (route sdkCall successParams req) = 200%Z \/
  statusCode (route sdkCall successParams req) = 404%Z \/
  statusCode (route sdkCall successParams req) = 500%Z.
Proof.
  unfold route. destruct (findRoute req routes) as [h |]; [| right; left; reflexivity].
  destruct h; cbn [runHandler]; try (left; reflexivity);
    destruct (sdkCall _); cbn; auto.
Qed.

End ServerProperties.

(** X14: The loop over the table takes the first entry that fits, and no two
    entries fit the same request, so the order of the table does not
    matter: a handler is chosen exactly when its own key fits. *)
Theorem findRoute_unambiguous
    (req : Server.IncomingMessage) (h : Server.Handler) :
  Server.findRoute req Server.routes = Some h
  <-> exists key, In (key, h) Server.routes /\ Server.matches req key = true.
Proof.
  split; [apply findRoute_Some |].
  intros (key & Hin & Hm).
  destruct (Server.findRoute req Server.routes) as [h' |] eqn:Hfind.
  - apply findRoute_Some in Hfind as (key' & Hin' & Hm').
    assert (key' = key) as ->.
    { apply (matching_key_unique req); try assumption.
      - apply in_map_iff. exists (key', h'). split; [reflexivity | exact Hin'].
      - apply in_map_iff. exists (key, h). split; [reflexivity | exact Hin]. }
    f_equal. exact (routes_keys_distinct key h' h Hin' Hin).
  - rewrite (findRoute_None req _ Hfind key h Hin) in Hm. discriminate Hm.
Qed.

(** X15: A request whose method is neither [GET] nor [POST], in these very
    letters, is answered with 404 and [Not Found], whatever its URL. *)
Theorem handleRequest_unknown_method
    {Json Form : Type} (JSONparse : string -> Js.completion Json)
    (querystringParse : string -> Form)
    (sdkCall : Server.Handler -> Server.SdkOutcome)
    (successParams : string -> string) (req : Server.IncomingMessage) :
  Server.method req <> "GET" ->
  Server.method req <> "POST" ->
  Server.handleRequest JSONparse querystringParse sdkCall successParams req
  = Server.notFound.
Proof.
  intros Hget Hpost. unfold Server.handleRequest.
  destruct (String.eqb_spec (Server.method req) "POST"); [contradiction |].
  unfold Server.route.
  destruct (Server.findRoute req Server.routes) as [h |] eqn:Hfind;
    [| reflexivity].
  apply findRoute_Some in Hfind as (key & Hin & Hm).
  apply matches_spec in Hm as [Hmeth _].
  destruct (route_method key h Hin) as [Hk | [Hk _]]; congruence.
Qed.

Lemma handleRequest_unknown_method_witness :
  Server.handleRequest (Json := string) (Form := string)
    (fun body => Js.Normal body) (fun body => body)
    (fun _ => Server.Resolved "{}") (fun _ => "{}")
    {| Server.method := "DELETE"; Server.url := Some "/success";
       Server.contentTypeHeader := None; Server.chunks := [] |}
  = Server.notFound.
Proof.
  apply handleRequest_unknown_method; discriminate.
Defined.

(** X16: Status 400 is the answer to one thing only: a [POST] whose
    [content-type] is exactly [application/json] and whose body
    [JSON.parse] rejects. It is given before the URL is looked at, so also
    for a URL that no route knows. *)
Theorem handleRequest_bad_request_iff
    {Json Form : Type} (JSONparse : string -> Js.completion Json)
    (querystringParse : string -> Form)
    (sdkCall : Server.Handler -> Server.SdkOutcome)
    (successParams : string -> string) (req : Server.IncomingMessage) :
  Server.statusCode
    (Server.handleRequest JSONparse querystringParse sdkCall successParams req)
  = 400%Z
  <-> (Server.method req = "POST" /\
       Server.contentTypeHeader req = Some "application/json" /\
       exists e, JSONparse (Server.collectBody req) = Js.Throw e).
Proof.
  unfold Server.handleRequest, Server.parseBody.
  pose proof (route_status sdkCall successParams req) as Hroute.
  destruct (String.eqb_spec (Server.method req) "POST") as [Hpost | Hpost].
  2: { split; [intros H; rewrite H in Hroute; intuition discriminate |].
       intros [H _]. contradiction. }
  destruct (Server.contentTypeHeader req) as [ct |].
  2: { split; [intros H; rewrite H in Hroute; intuition discriminate |].
       intros (_ & H & _). discriminate H. }
  destruct (String.eqb_spec ct "application/json") as [-> | Hct].
  - destruct (JSONparse (Server.collectBody req)) as [v | e].
    + split; [intros H; rewrite H in Hroute; intuition discriminate |].
      intros (_ & _ & e & He). discriminate He.
    + split; [| reflexivity].
      intros _. split; [exact Hpost |]. split; [reflexivity |].
      exists e. reflexivity.
  - assert (Hno : Some ct <> Some "application/json") by congruence.
    destruct (String.eqb ct "application/x-www-form-urlencoded");
      (split; [intros H; rewrite H in Hroute; intuition discriminate |]);
      intros (_ & H & _); contradiction.
Qed.

(** X17: A [POST] never reaches a handler that calls Stripe: it is answered with
    400, with 404, or by the webhook handler with [success], and the last
    only for a URL that starts with [/webhook]. *)
Theorem handleRequest_post
    {Json Form : Type} (JSONparse : string -> Js.completion Json)
    (querystringParse : string -> Form)
    (sdkCall : Server.Handler -> Server.SdkOutcome)
    (successParams : string -> string) (req : Server.IncomingMessage) :
  Server.method req = "POST" ->
  Server.handleRequest JSONparse querystringParse sdkCall successParams req
    = Server.invalidData \/
  Server.handleRequest JSONparse querystringParse sdkCall successParams req
    = Server.notFound \/
  (Server.handleRequest JSONparse querystringParse sdkCall successParams req
     = {| Server.statusCode := 200; Server.contentTypeOut := "text/plain";
          Server.payload := "success" |} /\
   exists rest, Server.url req = Some ("/webhook" ++ rest)).
Proof.
  intros Hpost. unfold Server.handleRequest.
  rewrite Hpost. cbn [String.eqb Ascii.eqb Bool.eqb].
  change ("POST" =? "POST")%string with true. cbv iota.
  destruct (Server.parseBody _ _ _ _) as [body | e]; [| left; reflexivity].
  right. unfold Server.route.
  destruct (Server.findRoute req Server.routes) as [h |] eqn:Hfind;
    [| left; reflexivity].
  right.
  apply findRoute_Some in Hfind as (key & Hin & Hm).
  apply matches_spec in Hm as (Hmeth & u & Hu & Hpre).
  destruct (route_method key h Hin) as [Hk | [Hk ->]]; [congruence |].
  split; [reflexivity |].
  assert (key = "POST /webhook") as ->.
  { unfold Server.routes in Hin. cbn [In] in Hin.
    repeat match goal with
           | H : _ \/ _ |- _ => destruct H as [H | H]
           | H : False |- _ => destruct H
           end; congruence. }
  apply prefix_iff_append in Hpre as [rest ->].
  exists rest. exact Hu.
Qed.

Lemma handleRequest_post_witness :
  Server.handleRequest (Json := string) (Form := string)
    (fun body => Js.Normal body) (fun body => body)
    (fun _ => Server.Rejected "no network") (fun _ => "{}")
    {| Server.method := "POST"; Server.url := Some "/create-refund";
       Server.contentTypeHeader := Some "text/plain";
       Server.chunks := ["amount=1"] |}
  = Server.notFound.
Proof.
  destruct (handleRequest_post (Json := string) (Form := string)
              (fun body => Js.Normal body) (fun body => body)
              (fun _ => Server.Rejected "no network") (fun _ => "{}")
              {| Server.method := "POST"; Server.url := Some "/create-refund";
                 Server.contentTypeHeader := Some "text/plain";
                 Server.chunks := ["amount=1"] |} eq_refl)
    as [H | [H | [H _]]].
  - discriminate H.
  - exact H.
  - discriminate H.
Defined.
